(** * IndexDataManager: translation of GL index data into D3D index buffers

    A shallow embedding of [src/libANGLE/renderer/d3d/IndexDataManager.cpp]
    and the properties of its index translation: the choice of the
    destination index type, the element conversion, the three buffer paths
    of [prepareIndexData] and the calls it makes on its collaborators.

    Conventions.
    - C++ unsigned integers are [Z] with the wrap-around written out
      ([to_uint], [to_GLsizei]); shifts are [Z.shiftl] and [Z.shiftr].
    - Client memory and buffer contents are [list byte]; typed accesses
      [in[i]] and [out[i]] are little-endian loads and stores, as on every
      platform a D3D renderer runs on.
    - The classes the translation unit only calls (BufferD3D,
      IndexBufferInterface, the buffer factory) are an interface, the class
      [Backend], over an abstract world; every call on them is also recorded
      in a chronological trace of events. *)

From Stdlib Require Import ZArith List Bool Lia.
From coqutil Require Import Byte Word.LittleEndianList.
Import ListNotations.
Local Open Scope Z_scope.

(** ** GL enumerants and C integer types *)

Definition GLenum := Z.

Definition GL_UNSIGNED_BYTE : GLenum := 0x1401.
Definition GL_UNSIGNED_SHORT : GLenum := 0x1403.
Definition GL_UNSIGNED_INT : GLenum := 0x1405.

(** The closed set of element types a draw call may carry. *)
Definition IsIndexType (type : GLenum) : Prop :=
  type = GL_UNSIGNED_BYTE \/ type = GL_UNSIGNED_SHORT \/ type = GL_UNSIGNED_INT.

Definition UINT_MAX : Z := 2 ^ 32 - 1.

(** [static_cast<unsigned int>] of an integer value. *)
Definition to_uint (v : Z) : Z := v mod 2 ^ 32.

(** [static_cast<size_t>] of an integer value (64-bit build). *)
Definition to_size_t (v : Z) : Z := v mod 2 ^ 64.

(** Conversion of an integer value to [GLsizei] (a 32-bit [int]). *)
Definition to_GLsizei (v : Z) : Z := (v + 2 ^ 31) mod 2 ^ 32 - 2 ^ 31.

(** The element types the converter template is instantiated at. *)
Inductive CType : Type := GLubyte | GLushort | GLuint.

Definition sizeof (t : CType) : nat :=
  match t with
  | GLubyte => 1
  | GLushort => 2
  | GLuint => 4
  end.

Definition bitsof (t : CType) : Z := 8 * Z.of_nat (sizeof t).

(** [static_cast<T>] of an integer value to an unsigned type [T]. *)
Definition static_cast (t : CType) (v : Z) : Z := v mod 2 ^ bitsof t.

(** ** Helpers of other translation units *)

Record gl_Type : Type := mk_gl_Type { bytes : Z; bytesShift : Z }.

(** Modelled from the spec: gl::GetTypeInfo (libANGLE/formatutils) is not
    among the sources; the element widths are the closed set of 8, 16 and 32
    bits, each with its byte size and the shift that scales by it.  Any other
    enumerant has no index width and gets a zero entry. *)
Definition GetTypeInfo (type : GLenum) : gl_Type :=
  if type =? GL_UNSIGNED_BYTE then mk_gl_Type 1 0
  else if type =? GL_UNSIGNED_SHORT then mk_gl_Type 2 1
  else if type =? GL_UNSIGNED_INT then mk_gl_Type 4 2
  else mk_gl_Type 0 0.

(** Modelled from the spec: gl::GetPrimitiveRestartIndex (common/utilities)
    is not among the sources; the restart sentinel of a width is the maximum
    value representable at that width.  Other enumerants reach its
    unreachable branch, which returns 0. *)
Definition GetPrimitiveRestartIndex (type : GLenum) : Z :=
  if type =? GL_UNSIGNED_BYTE then 0xFF
  else if type =? GL_UNSIGNED_SHORT then 0xFFFF
  else if type =? GL_UNSIGNED_INT then 0xFFFFFFFF
  else 0.

(** ** Typed views of byte arrays *)

(** [in[i]] for [const T *in]: the little-endian value of the [sizeof T]
    bytes at byte position [i * sizeof T].  Reading past the end of the
    array is undefined in C++; here the missing bytes read as zero. *)
Definition load (t : CType) (mem : list byte) (i : nat) : Z :=
  le_combine (firstn (sizeof t) (skipn (i * sizeof t) mem)).

(** The bytes of an array of [T] holding the given values. *)
Definition store_array (t : CType) (values : list Z) : list byte :=
  flat_map (le_split (sizeof t)) values.

(** The first [count] elements of an array of [T]. *)
Definition load_array (t : CType) (mem : list byte) (count : nat) : list Z :=
  map (load t mem) (seq 0 count).

(** ** The converter *)

(** [ConvertIndexArray<InputT, DestT>]: the bytes written through [output],
    one [DestT] per loop iteration. *)
Definition ConvertIndexArray (InputT DestT : CType)
    (input : list byte) (sourceType : GLenum) (destinationType : GLenum)
    (count : Z) (usePrimitiveRestartFixedIndex : bool) : list byte :=
  let in_ := load InputT input in
  if usePrimitiveRestartFixedIndex then
    let srcRestartIndex :=
      static_cast InputT (GetPrimitiveRestartIndex sourceType) in
    let destRestartIndex :=
      static_cast DestT (GetPrimitiveRestartIndex destinationType) in
    store_array DestT
      (map (fun i => if in_ i =? srcRestartIndex
                     then destRestartIndex
                     else static_cast DestT (in_ i))
           (seq 0 (Z.to_nat count)))
  else
    store_array DestT
      (map (fun i => static_cast DestT (in_ i)) (seq 0 (Z.to_nat count))).

(** The branch [ConvertIndices] takes for a pair of types; the widening
    branches carry whether their ASSERT on the destination type holds. *)
Inductive ConvertBranch : Type :=
| BranchMemcpy
| BranchByteToShort (assertion : bool)
| BranchShortToInt (assertion : bool)
| BranchUnreachable.

Definition ConvertIndices_branch (sourceType destinationType : GLenum)
    : ConvertBranch :=
  if sourceType =? destinationType then BranchMemcpy
  else if sourceType =? GL_UNSIGNED_BYTE
  then BranchByteToShort (destinationType =? GL_UNSIGNED_SHORT)
  else if sourceType =? GL_UNSIGNED_SHORT
  then BranchShortToInt (destinationType =? GL_UNSIGNED_INT)
  else BranchUnreachable.

(** [ConvertIndices]: the bytes written through [output].  [count] is a
    [GLsizei]; the size handed to memcpy is computed in [unsigned int].  In a
    release build the ASSERTs and UNREACHABLE compile to nothing, so a
    widening branch converts whatever the destination type and the
    unreachable branch writes nothing. *)
Definition ConvertIndices (sourceType destinationType : GLenum)
    (input : list byte) (count : Z)
    (usePrimitiveRestartFixedIndex : bool) : list byte :=
  match ConvertIndices_branch sourceType destinationType with
  | BranchMemcpy =>
      let typeInfo := GetTypeInfo destinationType in
      firstn (Z.to_nat (to_uint (count * bytes typeInfo))) input
  | BranchByteToShort _ =>
      ConvertIndexArray GLubyte GLushort input sourceType destinationType
        count usePrimitiveRestartFixedIndex
  | BranchShortToInt _ =>
      ConvertIndexArray GLushort GLuint input sourceType destinationType
        count usePrimitiveRestartFixedIndex
  | BranchUnreachable => []
  end.

(** ** Errors *)

(** [gl::Error], by the kind of error it carries; messages are dropped. *)
Inductive gl_Error : Type :=
| NoError
| OutOfMemory
| InternalError (code : Z).

Definition isError (e : gl_Error) : bool :=
  match e with
  | NoError => false
  | _ => true
  end.

(** ** Collaborators *)

Inductive RendererClass : Type := RENDERER_D3D11 | RENDERER_D3D9.

Definition RendererClass_eqb (a b : RendererClass) : bool :=
  match a, b with
  | RENDERER_D3D11, RENDERER_D3D11 => true
  | RENDERER_D3D9, RENDERER_D3D9 => true
  | _, _ => false
  end.

(** Objects of the collaborating classes are named by their address. *)
Definition IndexBufferInterfaceRef := Z.
Definition BufferD3DRef := Z.
Definition IndexBufferRef := Z.

(** The methods [IndexDataManager.cpp] calls on classes defined elsewhere.
    Each takes the world it runs in; those that can change it return the new
    one.  [mapBuffer] yields the stream offset it stores through its last
    argument, and [mapped_store] is a store of bytes through the pointer
    [mapBuffer] handed out.  [getData] yields the bytes [*outData] points to,
    [client_memory] those a client pointer points to. *)
Class Backend (World : Type) : Type := {
  INITIAL_INDEX_BUFFER_SIZE : Z;
  newStreamingIndexBufferInterface : World -> IndexBufferInterfaceRef * World;
  reserveBufferSpace :
    IndexBufferInterfaceRef -> Z -> GLenum -> World -> gl_Error * World;
  mapBuffer : IndexBufferInterfaceRef -> Z -> World -> gl_Error * Z * World;
  mapped_store : IndexBufferInterfaceRef -> list byte -> World -> World;
  unmapBuffer : IndexBufferInterfaceRef -> World -> gl_Error * World;
  getIndexBuffer : IndexBufferInterfaceRef -> World -> IndexBufferRef;
  getBufferSize : IndexBufferInterfaceRef -> World -> Z;
  getIndexType : IndexBufferInterfaceRef -> World -> GLenum;
  getIndexSerial : IndexBufferInterfaceRef -> World -> Z;
  getSize : BufferD3DRef -> World -> Z;
  supportsDirectBinding : BufferD3DRef -> World -> bool;
  getSerial : BufferD3DRef -> World -> Z;
  getStaticIndexBuffer :
    BufferD3DRef -> World -> option IndexBufferInterfaceRef;
  invalidateStaticData : BufferD3DRef -> World -> World;
  getData : BufferD3DRef -> World -> gl_Error * list byte * World;
  promoteStaticUsage : BufferD3DRef -> Z -> World -> World;
  client_memory : Z -> World -> list byte
}.

(** The calls that act on a collaborator, in the order they are made. *)
Inductive Event : Type :=
| EvNewStreamingBuffer (buffer : IndexBufferInterfaceRef)
| EvReserveBufferSpace (buffer : IndexBufferInterfaceRef) (size : Z)
    (indexType : GLenum)
| EvMapBuffer (buffer : IndexBufferInterfaceRef) (size : Z)
| EvConvertIndices (buffer : IndexBufferInterfaceRef)
    (sourceType destinationType : GLenum) (count : Z)
    (usePrimitiveRestartFixedIndex : bool) (written : list byte)
| EvUnmapBuffer (buffer : IndexBufferInterfaceRef)
| EvGetData (buffer : BufferD3DRef)
| EvInvalidateStaticData (buffer : BufferD3DRef)
| EvPromoteStaticUsage (buffer : BufferD3DRef) (dataSize : Z).

(** ** Data of the translation unit

    The structures are declared in IndexDataManager.h; their fields are those
    the functions read and write.  Null pointers are [None]. *)

Record IndexRange : Type := mk_IndexRange {
  range_start : Z;
  range_end : Z;
  vertexIndexCount : Z
}.

Record SourceIndexData : Type := mk_SourceIndexData {
  srcBuffer : option BufferD3DRef;
  srcIndices : Z;
  srcIndexType : GLenum;
  srcCount : Z
}.

Record TranslatedIndexData : Type := mk_TranslatedIndexData {
  indexRange : IndexRange;
  startIndex : Z;
  startOffset : Z;
  indexBuffer : option IndexBufferRef;
  storage : option BufferD3DRef;
  indexType : GLenum;
  serial : Z;
  srcIndexData : SourceIndexData
}.

Record IndexDataManager : Type := mk_IndexDataManager {
  mRendererClass : RendererClass;
  mStreamingBufferShort : option IndexBufferInterfaceRef;
  mStreamingBufferInt : option IndexBufferInterfaceRef
}.

(** Field assignments through [translated->]. *)
Definition set_indexType (v : GLenum) (t : TranslatedIndexData) :=
  mk_TranslatedIndexData (indexRange t) (startIndex t) (startOffset t)
    (indexBuffer t) (storage t) v (serial t) (srcIndexData t).

Definition set_srcIndexData (v : SourceIndexData) (t : TranslatedIndexData) :=
  mk_TranslatedIndexData (indexRange t) (startIndex t) (startOffset t)
    (indexBuffer t) (storage t) (indexType t) (serial t) v.

Definition set_storage (v : option BufferD3DRef) (t : TranslatedIndexData) :=
  mk_TranslatedIndexData (indexRange t) (startIndex t) (startOffset t)
    (indexBuffer t) v (indexType t) (serial t) (srcIndexData t).

(** The four assignments that end each successful path, in one step. *)
Definition set_binding (ib : option IndexBufferRef) (s i o : Z)
    (t : TranslatedIndexData) :=
  mk_TranslatedIndexData (indexRange t) i o ib (storage t) (indexType t) s
    (srcIndexData t).

(** ** The state a call runs in, and its monad *)

Section Manager.

Context {World : Type} {backend : Backend World}.

Record State : Type := mk_State {
  world : World;
  manager : IndexDataManager;
  translated : TranslatedIndexData;
  trace : list Event
}.

Definition M (A : Type) : Type := State -> A * State.

Definition ret {A} (a : A) : M A := fun s => (a, s).

Definition bind {A B} (m : M A) (k : A -> M B) : M B :=
  fun s => let (a, s') := m s in k a s'.

Definition get : M State := fun s => (s, s).

Definition set_manager (m : IndexDataManager) : M unit :=
  fun s => (tt, mk_State (world s) m (translated s) (trace s)).

Definition modify_translated
    (f : TranslatedIndexData -> TranslatedIndexData) : M unit :=
  fun s => (tt, mk_State (world s) (manager s) (f (translated s)) (trace s)).

End Manager.

Arguments State World : clear implicits.
Arguments M World A : clear implicits.

Declare Scope idm_scope.
Delimit Scope idm_scope with idm.

Notation "x <- m ;; k" := (bind m (fun x => k))
  (at level 61, m at next level, right associativity) : idm_scope.
Notation "m ;;; k" := (bind m (fun _ => k))
  (at level 61, right associativity) : idm_scope.
(** [ANGLE_TRY], and the [if (error.isError()) return error;] idiom. *)
Notation "'TRY' m ;; k" :=
  (bind m (fun e => if isError e then ret e else k))
  (at level 61, m at next level, right associativity) : idm_scope.

(** ** The functions of IndexDataManager.cpp *)

Section IndexDataManager.

Context {World : Type} {backend : Backend World}.

Local Open Scope idm_scope.

(** Calls on collaborators: the call is recorded in the trace and made on the
    current world. *)
Definition record (e : Event) (w : World) (s : State World) : State World :=
  mk_State w (manager s) (translated s) (trace s ++ [e]).

Definition call_reserveBufferSpace (buffer : IndexBufferInterfaceRef)
    (size : Z) (indexType : GLenum) : M World gl_Error :=
  fun s =>
    let r := reserveBufferSpace buffer size indexType (world s) in
    (fst r, record (EvReserveBufferSpace buffer size indexType) (snd r) s).

Definition call_mapBuffer (buffer : IndexBufferInterfaceRef) (size : Z)
    : M World (gl_Error * Z) :=
  fun s =>
    let r := mapBuffer buffer size (world s) in
    (fst r, record (EvMapBuffer buffer size) (snd r) s).

Definition call_unmapBuffer (buffer : IndexBufferInterfaceRef)
    : M World gl_Error :=
  fun s =>
    let r := unmapBuffer buffer (world s) in
    (fst r, record (EvUnmapBuffer buffer) (snd r) s).

Definition call_getData (buffer : BufferD3DRef)
    : M World (gl_Error * list byte) :=
  fun s =>
    let r := getData buffer (world s) in
    (fst r, record (EvGetData buffer) (snd r) s).

Definition call_invalidateStaticData (buffer : BufferD3DRef)
    : M World unit :=
  fun s =>
    (tt, record (EvInvalidateStaticData buffer)
           (invalidateStaticData buffer (world s)) s).

Definition call_promoteStaticUsage (buffer : BufferD3DRef) (dataSize : Z)
    : M World unit :=
  fun s =>
    (tt, record (EvPromoteStaticUsage buffer dataSize)
           (promoteStaticUsage buffer dataSize (world s)) s).

Definition call_newStreamingIndexBufferInterface
    : M World IndexBufferInterfaceRef :=
  fun s =>
    let r := newStreamingIndexBufferInterface (world s) in
    (fst r, record (EvNewStreamingBuffer (fst r)) (snd r) s).

(** The call of [ConvertIndices] on a mapped buffer: what it writes goes
    through the mapped pointer. *)
Definition call_ConvertIndices (buffer : IndexBufferInterfaceRef)
    (sourceType destinationType : GLenum) (input : list byte) (count : Z)
    (usePrimitiveRestartFixedIndex : bool) : M World unit :=
  fun s =>
    let written :=
      ConvertIndices sourceType destinationType input count
        usePrimitiveRestartFixedIndex in
    (tt, record (EvConvertIndices buffer sourceType destinationType count
                   usePrimitiveRestartFixedIndex written)
           (mapped_store buffer written (world s)) s).

(** [StreamInIndexBuffer]; the second component is [*offset] (meaningful when
    [mapBuffer] succeeded; a null [offset] is a caller that drops it).
    [count] is an [unsigned int], converted to [GLsizei] at the call of
    [ConvertIndices]. *)
Definition StreamInIndexBuffer (buffer : IndexBufferInterfaceRef)
    (data : list byte) (count : Z) (srcType dstType : GLenum)
    (usePrimitiveRestartFixedIndex : bool) : M World (gl_Error * Z) :=
  let dstTypeInfo := GetTypeInfo dstType in
  if count >? Z.shiftr UINT_MAX (bytesShift dstTypeInfo)
  then ret (OutOfMemory, 0)
  else
    let bufferSizeRequired :=
      to_uint (Z.shiftl count (bytesShift dstTypeInfo)) in
    error <- call_reserveBufferSpace buffer bufferSizeRequired dstType ;;
    if isError error then ret (error, 0)
    else
      r <- call_mapBuffer buffer bufferSizeRequired ;;
      let (error, offset) := r in
      if isError error then ret (error, offset)
      else
        call_ConvertIndices buffer srcType dstType data (to_GLsizei count)
          usePrimitiveRestartFixedIndex ;;;
        error <- call_unmapBuffer buffer ;;
        if isError error then ret (error, offset)
        else ret (NoError, offset).

Definition UsePrimitiveRestartWorkaround
    (primitiveRestartFixedIndexEnabled : bool) (type : GLenum)
    (rendererClass : RendererClass) : bool :=
  negb primitiveRestartFixedIndexEnabled && (type =? GL_UNSIGNED_SHORT)
  && RendererClass_eqb rendererClass RENDERER_D3D11.

(** [getStreamingIndexBuffer]; the second component is [*outBuffer].  When
    the first reservation fails the new buffer is dropped and the member
    stays null. *)
Definition getStreamingIndexBuffer (destinationIndexType : GLenum)
    : M World (gl_Error * option IndexBufferInterfaceRef) :=
  s <- get ;;
  let isInt := destinationIndexType =? GL_UNSIGNED_INT in
  let streamingBuffer :=
    if isInt then mStreamingBufferInt (manager s)
    else mStreamingBufferShort (manager s) in
  match streamingBuffer with
  | Some b => ret (NoError, Some b)
  | None =>
      newBuffer <- call_newStreamingIndexBufferInterface ;;
      error <- call_reserveBufferSpace newBuffer INITIAL_INDEX_BUFFER_SIZE
                 destinationIndexType ;;
      if isError error then ret (error, None)
      else
        s <- get ;;
        let m := manager s in
        set_manager
          (if isInt
           then mk_IndexDataManager (mRendererClass m)
                  (mStreamingBufferShort m) (Some newBuffer)
           else mk_IndexDataManager (mRendererClass m)
                  (Some newBuffer) (mStreamingBufferInt m)) ;;;
        ret (NoError, Some newBuffer)
  end.

(** [streamIndexData]. *)
Definition streamIndexData (data : list byte) (count : Z)
    (srcType dstType : GLenum) (usePrimitiveRestartFixedIndex : bool)
    : M World gl_Error :=
  let dstTypeInfo := GetTypeInfo dstType in
  r <- getStreamingIndexBuffer dstType ;;
  let (error, outBuffer) := r in
  if isError error then ret error
  else
    match outBuffer with
    | None => ret error (* excluded by ASSERT(indexBuffer != nullptr) *)
    | Some indexBuffer =>
        r <- StreamInIndexBuffer indexBuffer data count srcType dstType
               usePrimitiveRestartFixedIndex ;;
        let (error, offset) := r in
        if isError error then ret error
        else
          s <- get ;;
          modify_translated
            (set_binding (Some (getIndexBuffer indexBuffer (world s)))
               (getIndexSerial indexBuffer (world s))
               (Z.shiftr offset (bytesShift dstTypeInfo))
               offset) ;;;
          ret NoError
    end.

(** The presence of a restart index, from the range the caller scanned. *)
Definition hasPrimitiveRestartIndex (range : IndexRange) (count : Z)
    (srcType : GLenum) : bool :=
  (vertexIndexCount range <? to_size_t count)
  || (range_end range =? GetPrimitiveRestartIndex srcType).

(** The local [primitiveRestartWorkaround] of [prepareIndexData]. *)
Definition primitiveRestartWorkaround (rendererClass : RendererClass)
    (range : IndexRange) (srcType : GLenum) (count : Z)
    (primitiveRestartFixedIndexEnabled : bool) : bool :=
  UsePrimitiveRestartWorkaround primitiveRestartFixedIndexEnabled srcType
    rendererClass
  && hasPrimitiveRestartIndex range count srcType.

(** The local [dstType] of [prepareIndexData]. *)
Definition destinationType (srcType : GLenum)
    (primitiveRestartWorkaround : bool) : GLenum :=
  if (srcType =? GL_UNSIGNED_INT) || primitiveRestartWorkaround
  then GL_UNSIGNED_INT
  else GL_UNSIGNED_SHORT.

(** The switch on [srcType] that computes [offsetAligned]. *)
Definition offsetAligned (srcType : GLenum) (offset : Z) : bool :=
  if srcType =? GL_UNSIGNED_BYTE then offset mod 1 =? 0
  else if srcType =? GL_UNSIGNED_SHORT then offset mod 2 =? 0
  else if srcType =? GL_UNSIGNED_INT then offset mod 4 =? 0
  else false.

(** The two flags of Case 2b, from the buffer's static index buffer. *)
Definition staticBufferInitialized
    (staticBuffer : option IndexBufferInterfaceRef) (w : World) : bool :=
  match staticBuffer with
  | Some sb => negb (getBufferSize sb w =? 0)
  | None => false
  end.

Definition staticBufferUsable
    (staticBuffer : option IndexBufferInterfaceRef) (aligned : bool)
    (dstType : GLenum) (w : World) : bool :=
  match staticBuffer with
  | Some sb => aligned && (getIndexType sb w =? dstType)
  | None => false
  end.

(** [prepareIndexData], Case 2b, the block run when no static buffer is left
    or the offset is unaligned: stream the draw's slice of the buffer, then
    promote the buffer's static usage. *)
Definition prepare_stream_block (buffer : BufferD3DRef) (offset count : Z)
    (srcType dstType : GLenum) (primitiveRestartFixedIndexEnabled : bool)
    : M World gl_Error :=
  let srcTypeInfo := GetTypeInfo srcType in
  r <- call_getData buffer ;;
  let (error, bufferData) := r in
  if isError error then ret error
  else
    TRY streamIndexData (skipn (Z.to_nat offset) bufferData) (to_uint count)
          srcType dstType primitiveRestartFixedIndexEnabled ;;
    call_promoteStaticUsage buffer
      (to_GLsizei (Z.shiftl count (bytesShift srcTypeInfo))) ;;;
    ret NoError.

(** [prepareIndexData], Case 2b, the block run otherwise: fill the static
    buffer if it is not initialized, then bind it. *)
Definition prepare_static_block (buffer : BufferD3DRef)
    (staticBuffer : IndexBufferInterfaceRef) (initialized : bool)
    (offset : Z) (srcType dstType : GLenum)
    (primitiveRestartFixedIndexEnabled : bool) : M World gl_Error :=
  let srcTypeInfo := GetTypeInfo srcType in
  let dstTypeInfo := GetTypeInfo dstType in
  TRY (if initialized then ret NoError
       else
         r <- call_getData buffer ;;
         let (error, bufferData) := r in
         if isError error then ret error
         else
           s <- get ;;
           let convertCount :=
             Z.shiftr (to_uint (getSize buffer (world s)))
               (bytesShift srcTypeInfo) in
           r <- StreamInIndexBuffer staticBuffer bufferData convertCount
                  srcType dstType primitiveRestartFixedIndexEnabled ;;
           ret (fst r)) ;;
  s <- get ;;
  modify_translated
    (set_binding (Some (getIndexBuffer staticBuffer (world s)))
       (getIndexSerial staticBuffer (world s))
       (Z.shiftr offset (bytesShift srcTypeInfo))
       (to_uint
          (Z.shiftl (Z.shiftr offset (bytesShift srcTypeInfo))
             (bytesShift dstTypeInfo)))) ;;;
  ret NoError.

(** [prepareIndexData].  [glBuffer] is null or the buffer bound as element
    array; [indices] is the client pointer, or the byte offset into that
    buffer, as an integer.  The ASSERTs are preconditions of the caller and
    no part of the control flow. *)
Definition prepareIndexData (srcType : GLenum) (count : Z)
    (glBuffer : option BufferD3DRef) (indices : Z)
    (primitiveRestartFixedIndexEnabled : bool) : M World gl_Error :=
  s <- get ;;
  let workaround :=
    primitiveRestartWorkaround (mRendererClass (manager s))
      (indexRange (translated s)) srcType count
      primitiveRestartFixedIndexEnabled in
  let dstType := destinationType srcType workaround in
  let srcTypeInfo := GetTypeInfo srcType in
  let buffer := glBuffer in
  modify_translated (set_indexType dstType) ;;;
  modify_translated
    (set_srcIndexData (mk_SourceIndexData buffer indices srcType count)) ;;;
  match buffer with
  | None =>
      (* Case 1: the indices are passed by pointer *)
      modify_translated (set_storage None) ;;;
      streamIndexData (client_memory indices (world s)) (to_uint count)
        srcType dstType primitiveRestartFixedIndexEnabled
  | Some buffer =>
      (* Case 2: the indices are already in a buffer *)
      let offset := to_uint indices in
      let aligned := offsetAligned srcType offset in
      if aligned && supportsDirectBinding buffer (world s)
         && (dstType =? srcType)
      then
        (* Case 2a: the buffer can be used directly *)
        modify_translated (set_storage (Some buffer)) ;;;
        modify_translated
          (set_binding None (getSerial buffer (world s))
             (Z.shiftr offset (bytesShift srcTypeInfo)) offset) ;;;
        ret NoError
      else
        modify_translated (set_storage None) ;;;
        (* Case 2b: a static translated copy, or streaming *)
        let staticBuffer := getStaticIndexBuffer buffer (world s) in
        let initialized := staticBufferInitialized staticBuffer (world s) in
        let usable :=
          staticBufferUsable staticBuffer aligned dstType (world s) in
        staticBuffer <-
          (if initialized && negb usable
           then call_invalidateStaticData buffer ;;; ret None
           else ret staticBuffer) ;;
        match (if aligned then staticBuffer else None) with
        | None =>
            prepare_stream_block buffer offset count srcType dstType
              primitiveRestartFixedIndexEnabled
        | Some staticBuffer =>
            prepare_static_block buffer staticBuffer initialized offset
              srcType dstType primitiveRestartFixedIndexEnabled
        end
  end.

End IndexDataManager.

(** ** The other functions of IndexDataManager.cpp *)

Section Lifecycle.

Context {World : Type} {backend : Backend World}.

Local Open Scope idm_scope.

(** The constructor: both streaming buffers start null. *)
Definition new_IndexDataManager (rendererClass : RendererClass)
    : IndexDataManager :=
  mk_IndexDataManager rendererClass None None.

(** The destructor of [StreamingIndexBufferInterface], which the members'
    [std::unique_ptr] runs on the buffer it owns.  It is a matter of the
    collaborator and no method of the [Backend] interface, so that it is taken
    here as it comes and leaves no event. *)
Variable delete_StreamingIndexBufferInterface :
  IndexBufferInterfaceRef -> World -> World.

(** The deletion [std::unique_ptr::reset()] performs on what the member
    owned: none for a null member. *)
Definition delete_owned (owned : option IndexBufferInterfaceRef)
    : M World unit :=
  fun s =>
    match owned with
    | None => (tt, s)
    | Some b =>
        (tt,
         mk_State (delete_StreamingIndexBufferInterface b (world s))
           (manager s) (translated s) (trace s))
    end.

(** [deinitialize]: the two members are reset, the short one first.  A reset
    makes the member null and then deletes the buffer it owned. *)
Definition deinitialize : M World unit :=
  s <- get ;;
  set_manager
    (mk_IndexDataManager (mRendererClass (manager s)) None
       (mStreamingBufferInt (manager s))) ;;;
  delete_owned (mStreamingBufferShort (manager s)) ;;;
  s <- get ;;
  set_manager
    (mk_IndexDataManager (mRendererClass (manager s))
       (mStreamingBufferShort (manager s)) None) ;;;
  delete_owned (mStreamingBufferInt (manager s)).

(** [IsStreamingIndexData].  What it reads of the context are its arguments:
    [primitiveRestartEnabled] is [glState.isPrimitiveRestartEnabled()] and
    [glBuffer] the element array buffer of the bound vertex array. *)
Definition IsStreamingIndexData (primitiveRestartEnabled : bool)
    (glBuffer : option BufferD3DRef) (srcType : GLenum)
    (rendererClass : RendererClass) (w : World) : bool :=
  let primitiveRestartWorkaround :=
    UsePrimitiveRestartWorkaround primitiveRestartEnabled srcType
      rendererClass in
  match glBuffer with
  | None =>
      (* Case 1: the indices are passed by pointer *)
      true
  | Some buffer =>
      let dstType :=
        if (srcType =? GL_UNSIGNED_INT) || primitiveRestartWorkaround
        then GL_UNSIGNED_INT
        else GL_UNSIGNED_SHORT in
      (* Case 2a: the buffer can be used directly *)
      if supportsDirectBinding buffer w && (dstType =? srcType) then false
      else
        (* Case 2b: a static translated copy, or streaming *)
        match getStaticIndexBuffer buffer w with
        | None => true
        | Some staticBuffer =>
            if (getBufferSize staticBuffer w =? 0)
               || negb (getIndexType staticBuffer w =? dstType)
            then true
            else false
        end
  end.

End Lifecycle.

(** ** A small backend for running the functions

    One source buffer with at most one static index buffer, one client array
    with the same bytes, and streaming buffers that always map at offset 0.
    It is one instance of [Backend] among many, on which the concrete calls
    of the examples run; the theorems hold for every instance. *)

Module TestBackend.

Record TestWorld : Type := mk_TestWorld {
  tw_data : list byte;
  tw_direct : bool;
  tw_static : option (Z * GLenum);
  tw_readable : bool;
  tw_usage : Z;
  tw_stored : list byte
}.

Definition static_ref : IndexBufferInterfaceRef := 10.
Definition streaming_ref : IndexBufferInterfaceRef := 20.

Definition tw_reserve (ib : IndexBufferInterfaceRef) (size : Z)
    (type : GLenum) (w : TestWorld) : gl_Error * TestWorld :=
  if ib =? static_ref then
    match tw_static w with
    | Some (0, _) =>
        (NoError,
         mk_TestWorld (tw_data w) (tw_direct w) (Some (size, type))
           (tw_readable w) (tw_usage w) (tw_stored w))
    | Some (n, t) =>
        (if (size <=? n) && (type =? t) then NoError else InternalError 1, w)
    | None => (InternalError 2, w)
    end
  else (NoError, w).

Definition tw_static_size (w : TestWorld) : Z :=
  match tw_static w with
  | Some (n, _) => n
  | None => 0
  end.

Definition tw_static_type (w : TestWorld) : GLenum :=
  match tw_static w with
  | Some (_, t) => t
  | None => 0
  end.

#[global] Instance test_backend : Backend TestWorld := {|
  INITIAL_INDEX_BUFFER_SIZE := 16384;
  newStreamingIndexBufferInterface := fun w => (streaming_ref, w);
  reserveBufferSpace := tw_reserve;
  mapBuffer := fun _ _ w => (NoError, 0, w);
  mapped_store := fun _ written w =>
    mk_TestWorld (tw_data w) (tw_direct w) (tw_static w) (tw_readable w)
      (tw_usage w) written;
  unmapBuffer := fun _ w => (NoError, w);
  getIndexBuffer := fun ib _ => ib + 1;
  getBufferSize := fun ib w => if ib =? static_ref then tw_static_size w else 0;
  getIndexType := fun ib w => if ib =? static_ref then tw_static_type w else 0;
  getIndexSerial := fun ib _ => ib + 2;
  getSize := fun _ w => Z.of_nat (length (tw_data w));
  supportsDirectBinding := fun _ w => tw_direct w;
  getSerial := fun _ _ => 7;
  getStaticIndexBuffer := fun _ w =>
    match tw_static w with
    | Some _ => Some static_ref
    | None => None
    end;
  invalidateStaticData := fun _ w =>
    mk_TestWorld (tw_data w) (tw_direct w) None (tw_readable w) (tw_usage w)
      (tw_stored w);
  getData := fun _ w =>
    (if tw_readable w then NoError else InternalError 3, tw_data w, w);
  promoteStaticUsage := fun _ dataSize w =>
    mk_TestWorld (tw_data w) (tw_direct w) (tw_static w) (tw_readable w)
      (tw_usage w + dataSize) (tw_stored w);
  client_memory := fun _ w => tw_data w
|}.

(** A state for a draw of [count] indices whose scanned range ends at
    [range_end] and covers [vertices] vertices. *)
Definition initial_state (w : TestWorld) (rendererClass : RendererClass)
    (range_end vertices : Z) : State TestWorld :=
  mk_State w
    (mk_IndexDataManager rendererClass None None)
    (mk_TranslatedIndexData (mk_IndexRange 0 range_end vertices) 0 0 None None
       0 0 (mk_SourceIndexData None 0 0 0))
    [].

(** The world whose buffer and client array hold the given bytes. *)
Definition world_of (data : list byte) (direct : bool)
    (static : option (Z * GLenum)) : TestWorld :=
  mk_TestWorld data direct static true 0 [].

End TestBackend.

(** ** Specification vocabulary *)

(** The largest value an unsigned C type holds: the restart sentinel of its
    width. *)
Definition max_index (t : CType) : Z := 2 ^ bitsof t - 1.

(** The two widening conversions the converter implements. *)
Inductive Widening : GLenum -> CType -> GLenum -> CType -> Prop :=
| widen_byte_short :
    Widening GL_UNSIGNED_BYTE GLubyte GL_UNSIGNED_SHORT GLushort
| widen_short_int :
    Widening GL_UNSIGNED_SHORT GLushort GL_UNSIGNED_INT GLuint.

(** The calls [StreamInIndexBuffer] makes when nothing fails.  [count] is
    its [unsigned int] argument. *)
Definition stream_events (buffer : IndexBufferInterfaceRef)
    (data : list byte) (count : Z) (srcType dstType : GLenum)
    (usePrimitiveRestartFixedIndex : bool) : list Event :=
  let size := to_uint (Z.shiftl count (bytesShift (GetTypeInfo dstType))) in
  [EvReserveBufferSpace buffer size dstType;
   EvMapBuffer buffer size;
   EvConvertIndices buffer srcType dstType (to_GLsizei count)
     usePrimitiveRestartFixedIndex
     (ConvertIndices srcType dstType data (to_GLsizei count)
        usePrimitiveRestartFixedIndex);
   EvUnmapBuffer buffer].

(** The pairs of types on which [ConvertIndices] meets its own contract: it
    copies, or widens with its ASSERT true, and never reaches UNREACHABLE. *)
Definition converter_contract (sourceType destinationType : GLenum) : Prop :=
  match ConvertIndices_branch sourceType destinationType with
  | BranchMemcpy => True
  | BranchByteToShort assertion => assertion = true
  | BranchShortToInt assertion => assertion = true
  | BranchUnreachable => False
  end.

(** An event is no usage promotion. *)
Definition not_promotion (ev : Event) : Prop :=
  match ev with
  | EvPromoteStaticUsage _ _ => False
  | _ => True
  end.

(** A conversion event, if the event is one, is of the given types. *)
Definition converts_only (srcType dstType : GLenum) (ev : Event) : Prop :=
  match ev with
  | EvConvertIndices _ st dt _ _ _ => st = srcType /\ dt = dstType
  | _ => True
  end.

(** The fields a call fills before it branches are the same in two
    descriptors. *)
Definition same_request (t t' : TranslatedIndexData) : Prop :=
  indexRange t' = indexRange t /\ storage t' = storage t /\
  indexType t' = indexType t /\ srcIndexData t' = srcIndexData t.

(** The member of the manager that streams a destination type. *)
Definition streaming_member (m : IndexDataManager)
    (destinationIndexType : GLenum) : option IndexBufferInterfaceRef :=
  if destinationIndexType =? GL_UNSIGNED_INT then mStreamingBufferInt m
  else mStreamingBufferShort m.

(** The C type of the elements of an index array of a GL type. *)
Inductive IndexCType : GLenum -> CType -> Prop :=
| ctype_byte : IndexCType GL_UNSIGNED_BYTE GLubyte
| ctype_short : IndexCType GL_UNSIGNED_SHORT GLushort
| ctype_int : IndexCType GL_UNSIGNED_INT GLuint.

(** An event is a call on an index buffer, not on a source buffer. *)
Definition index_buffer_event (ev : Event) : Prop :=
  match ev with
  | EvGetData _ | EvInvalidateStaticData _ | EvPromoteStaticUsage _ _ => False
  | _ => True
  end.

(** A manager keeps what another one has: the renderer class, and each
    streaming buffer that exists. *)
Definition keeps_streaming_buffers (m m' : IndexDataManager) : Prop :=
  mRendererClass m' = mRendererClass m /\
  (forall b, mStreamingBufferShort m = Some b ->
             mStreamingBufferShort m' = Some b) /\
  (forall b, mStreamingBufferInt m = Some b ->
             mStreamingBufferInt m' = Some b).

Section Vocabulary.

Context {World : Type} {backend : Backend World}.

(** The calls [getStreamingIndexBuffer] makes: none, or the creation and the
    first reservation of the streaming buffer. *)
Definition creation_events (destinationIndexType : GLenum)
    (evs : list Event) : Prop :=
  evs = [] \/
  exists newBuffer,
    evs = [EvNewStreamingBuffer newBuffer;
           EvReserveBufferSpace newBuffer INITIAL_INDEX_BUFFER_SIZE
             destinationIndexType].

(** The destination type a call in state [s] decides on. *)
Definition requested_type (s : State World) (srcType : GLenum) (count : Z)
    (primitiveRestartFixedIndexEnabled : bool) : GLenum :=
  destinationType srcType
    (primitiveRestartWorkaround (mRendererClass (manager s))
       (indexRange (translated s)) srcType count
       primitiveRestartFixedIndexEnabled).

(** The condition of Case 2a, on which a buffer is bound directly. *)
Definition binds_directly (s : State World) (buffer : BufferD3DRef)
    (srcType dstType : GLenum) (offset : Z) : bool :=
  offsetAligned srcType offset && supportsDirectBinding buffer (world s)
  && (dstType =? srcType).

(** The state in which Case 1 and Case 2b start: the request is written to
    the descriptor and its storage is null. *)
Definition request_state (s : State World) (srcType : GLenum) (count : Z)
    (glBuffer : option BufferD3DRef) (indices : Z)
    (primitiveRestartFixedIndexEnabled : bool) : State World :=
  mk_State (world s) (manager s)
    (set_storage None
       (set_srcIndexData (mk_SourceIndexData glBuffer indices srcType count)
          (set_indexType
             (requested_type s srcType count
                primitiveRestartFixedIndexEnabled)
             (translated s))))
    (trace s).

End Vocabulary.

(** * Properties *)

(** ** Typed views *)

Lemma skipn_flat_map_chunks {A B} (f : A -> list B) (n : nat) :
  (forall a, length (f a) = n) ->
  forall (i : nat) (l : list A),
    skipn (i * n) (flat_map f l) = flat_map f (skipn i l).
Proof.
  intros Hlen i; induction i as [|i IH]; intros l.
  - reflexivity.
  - destruct l as [|a l]; cbn [flat_map skipn].
    + now rewrite skipn_nil.
    + replace (S i * n)%nat with (length (f a) + i * n)%nat
        by (rewrite Hlen; lia).
      rewrite skipn_app, skipn_all2 by lia.
      replace (length (f a) + i * n - length (f a))%nat with (i * n)%nat
        by lia.
      cbn [app]. apply IH.
Qed.

Lemma load_store_array (t : CType) (values : list Z) (i : nat) :
  (i < length values)%nat ->
  load t (store_array t values) i = static_cast t (nth i values 0).
Proof.
  intros Hi. unfold load, store_array.
  rewrite (skipn_flat_map_chunks _ (sizeof t)) by apply length_le_split.
  destruct (skipn i values) as [|v rest] eqn:Hs.
  - apply (f_equal (@length Z)) in Hs. rewrite length_skipn in Hs.
    cbn in Hs. lia.
  - assert (Hv : nth i values 0 = v).
    { rewrite <- (firstn_skipn i values) at 1.
      rewrite app_nth2; rewrite length_firstn; [|lia].
      replace (i - Nat.min i (length values))%nat with 0%nat by lia.
      now rewrite Hs. }
    cbn [flat_map]. rewrite firstn_app, length_le_split, Nat.sub_diag.
    cbn [firstn]. rewrite app_nil_r.
    rewrite <- (length_le_split (sizeof t) v) at 1.
    rewrite firstn_all, le_combine_split, Hv.
    unfold static_cast, bitsof. f_equal. f_equal. lia.
Qed.

Lemma length_store_array (t : CType) (values : list Z) :
  length (store_array t values) = (length values * sizeof t)%nat.
Proof.
  unfold store_array. induction values as [|v values IH]; cbn [flat_map].
  - reflexivity.
  - rewrite length_app, length_le_split, IH. cbn [length]. lia.
Qed.

Lemma load_range (t : CType) (mem : list byte) (i : nat) :
  0 <= load t mem i <= max_index t.
Proof.
  unfold load, max_index, bitsof.
  pose proof (le_combine_bound (firstn (sizeof t) (skipn (i * sizeof t) mem)))
    as Hb.
  pose proof (length_firstn (sizeof t) (skipn (i * sizeof t) mem)) as Hl.
  assert (2 ^ (8 * Z.of_nat (length
             (firstn (sizeof t) (skipn (i * sizeof t) mem))))
          <= 2 ^ (8 * Z.of_nat (sizeof t))).
  { apply Z.pow_le_mono_r; lia. }
  lia.
Qed.

Lemma nth_map_seq {A} (g : nat -> A) (count i : nat) (d : A) :
  (i < count)%nat -> nth i (map g (seq 0 count)) d = g i.
Proof.
  intros Hi.
  rewrite (nth_indep _ d (g 0%nat)) by (rewrite length_map, length_seq; lia).
  rewrite (map_nth g (seq 0 count) 0%nat i), seq_nth by lia. reflexivity.
Qed.

(** ** The converter *)

Lemma ConvertIndexArray_load (InputT DestT : CType) (input : list byte)
    (sourceType destinationType : GLenum) (count : Z) (flag : bool)
    (i : nat) :
  (i < Z.to_nat count)%nat ->
  (bitsof InputT <= bitsof DestT) ->
  load DestT
    (ConvertIndexArray InputT DestT input sourceType destinationType count
       flag) i =
  if flag && (load InputT input i
              =? static_cast InputT (GetPrimitiveRestartIndex sourceType))
  then static_cast DestT
         (static_cast DestT (GetPrimitiveRestartIndex destinationType))
  else load InputT input i.
Proof.
  intros Hi Hbits.
  assert (Hcast : static_cast DestT (load InputT input i)
                  = load InputT input i).
  { unfold static_cast. apply Z.mod_small.
    pose proof (load_range InputT input i) as Hr. unfold max_index in Hr.
    assert (2 ^ bitsof InputT <= 2 ^ bitsof DestT).
    { apply Z.pow_le_mono_r; [lia|]. exact Hbits. }
    lia. }
  unfold ConvertIndexArray. destruct flag; cbn [andb].
  - rewrite load_store_array by (rewrite length_map, length_seq; exact Hi).
    rewrite nth_map_seq by exact Hi.
    destruct (load InputT input i
              =? static_cast InputT (GetPrimitiveRestartIndex sourceType)).
    + reflexivity.
    + unfold static_cast at 1. rewrite Z.mod_small; [exact Hcast|].
      rewrite Hcast. pose proof (load_range InputT input i) as Hr.
      unfold max_index in Hr.
      assert (2 ^ bitsof InputT <= 2 ^ bitsof DestT).
      { apply Z.pow_le_mono_r; [lia|]. exact Hbits. }
      lia.
  - rewrite load_store_array by (rewrite length_map, length_seq; exact Hi).
    rewrite nth_map_seq by exact Hi.
    unfold static_cast at 1. rewrite Z.mod_small; [exact Hcast|].
    rewrite Hcast. pose proof (load_range InputT input i) as Hr.
    unfold max_index in Hr.
    assert (2 ^ bitsof InputT <= 2 ^ bitsof DestT).
    { apply Z.pow_le_mono_r; [lia|]. exact Hbits. }
    lia.
Qed.

Lemma ConvertIndexArray_length (InputT DestT : CType) (input : list byte)
    (sourceType destinationType : GLenum) (count : Z) (flag : bool) :
  length
    (ConvertIndexArray InputT DestT input sourceType destinationType count
       flag)
  = (Z.to_nat count * sizeof DestT)%nat.
Proof.
  unfold ConvertIndexArray.
  destruct flag; rewrite length_store_array, length_map, length_seq;
    reflexivity.
Qed.

(** C3. Sentinel remap of the converter.  For both widening conversions
    (8 to 16 bits, 16 to 32 bits) and every element position below the count:
    with the remap flag set, a source element equal to the maximum of the
    source width is written as the maximum of the destination width, and any
    other element is written as its own value; with the flag clear every
    element is written as its own value.  Exactly [count] destination
    elements are written. *)
Theorem ConvertIndices_sentinel_remap
    (srcType dstType : GLenum) (InputT DestT : CType)
    (input : list byte) (count : Z) (flag : bool) (i : nat) :
  Widening srcType InputT dstType DestT ->
  (i < Z.to_nat count)%nat ->
  let output := ConvertIndices srcType dstType input count flag in
  length output = (Z.to_nat count * sizeof DestT)%nat /\
  (flag = true -> load InputT input i = max_index InputT ->
   load DestT output i = max_index DestT) /\
  (flag = true -> load InputT input i <> max_index InputT ->
   load DestT output i = load InputT input i) /\
  (flag = false -> load DestT output i = load InputT input i).
Proof.
  intros Hw Hi output.
  assert (Hout : output
                 = ConvertIndexArray InputT DestT input srcType dstType count
                     flag)
    by (destruct Hw; reflexivity).
  assert (Hbits : bitsof InputT <= bitsof DestT)
    by (destruct Hw; vm_compute; discriminate).
  assert (Hsrc : static_cast InputT (GetPrimitiveRestartIndex srcType)
                 = max_index InputT) by (destruct Hw; reflexivity).
  assert (Hdst : static_cast DestT
                   (static_cast DestT (GetPrimitiveRestartIndex dstType))
                 = max_index DestT) by (destruct Hw; reflexivity).
  pose proof (ConvertIndexArray_load InputT DestT input srcType dstType count
                flag i Hi Hbits) as Hload.
  rewrite Hsrc, Hdst, <- Hout in Hload.
  split; [rewrite Hout; apply ConvertIndexArray_length|].
  repeat split.
  - intros -> Heq. rewrite Hload. cbn [andb].
    apply Z.eqb_eq in Heq. now rewrite Heq.
  - intros -> Hne. rewrite Hload. cbn [andb].
    apply Z.eqb_neq in Hne. now rewrite Hne.
  - intros ->. exact Hload.
Qed.

Lemma ConvertIndices_sentinel_remap_witness :
  let input := store_array GLubyte [0; 1; 2; 255] in
  let output :=
    ConvertIndices GL_UNSIGNED_BYTE GL_UNSIGNED_SHORT input 4 true in
  length output = 8%nat /\ load GLushort output 3 = 65535.
Proof.
  intros input output.
  destruct (ConvertIndices_sentinel_remap GL_UNSIGNED_BYTE GL_UNSIGNED_SHORT
              GLubyte GLushort input 4 true 3 widen_byte_short)
    as [Hlen [Hmax _]].
  - vm_compute. lia.
  - split; [exact Hlen|]. exact (Hmax eq_refl eq_refl).
Defined.

(** ** Streaming *)

Ltac run :=
  unfold bind, ret, get, set_manager, modify_translated,
    call_reserveBufferSpace, call_mapBuffer, call_unmapBuffer,
    call_ConvertIndices, call_getData, call_invalidateStaticData,
    call_promoteStaticUsage, call_newStreamingIndexBufferInterface, record;
  cbn [fst snd world manager translated trace].

Ltac branch :=
  match goal with
  | |- context [if isError ?e then _ else _] => destruct (isError e) eqn:?
  | |- context [let (_, _) := ?p in _] => destruct p eqn:?
  end; run.

Section Streaming.

Context {World : Type} {backend : Backend World}.

Implicit Types (s : State World) (data : list byte).

Lemma StreamInIndexBuffer_overflow buffer data count srcType dstType flag s :
  count > Z.shiftr UINT_MAX (bytesShift (GetTypeInfo dstType)) ->
  StreamInIndexBuffer buffer data count srcType dstType flag s
  = (OutOfMemory, 0, s).
Proof.
  intros Hc. unfold StreamInIndexBuffer.
  destruct (count >? _) eqn:E; [reflexivity|].
  rewrite Z.gtb_ltb, Z.ltb_ge in E. lia.
Qed.

Lemma StreamInIndexBuffer_spec buffer data count srcType dstType flag s :
  count <= Z.shiftr UINT_MAX (bytesShift (GetTypeInfo dstType)) ->
  let r := StreamInIndexBuffer buffer data count srcType dstType flag s in
  manager (snd r) = manager s /\ translated (snd r) = translated s /\
  exists n,
    (1 <= n)%nat /\
    trace (snd r)
    = trace s
      ++ firstn n (stream_events buffer data count srcType dstType flag) /\
    (isError (fst (fst r)) = false -> fst (fst r) = NoError /\ n = 4%nat).
Proof.
  intros Hc. unfold StreamInIndexBuffer.
  destruct (count >? _) eqn:E.
  { rewrite Z.gtb_ltb, Z.ltb_lt in E. lia. }
  assert (Hfin : forall (e : gl_Error) (n : nat) (t : list Event),
             (1 <= n)%nat ->
             t = trace s
                 ++ firstn n
                      (stream_events buffer data count srcType dstType flag) ->
             (isError e = false -> e = NoError /\ n = 4%nat) ->
             exists n,
               (1 <= n)%nat /\
               t = trace s
                   ++ firstn n
                        (stream_events buffer data count srcType dstType
                           flag) /\
               (isError e = false -> e = NoError /\ n = 4%nat)).
  { intros e n t H1 H2 H3. exists n. auto. }
  run. branch.
  { split; [reflexivity|]. split; [reflexivity|].
    apply (Hfin _ 1%nat); [lia|reflexivity|congruence]. }
  branch. branch.
  { split; [reflexivity|]. split; [reflexivity|].
    apply (Hfin _ 2%nat); [lia|now rewrite <- app_assoc|congruence]. }
  branch.
  { split; [reflexivity|]. split; [reflexivity|].
    apply (Hfin _ 4%nat); [lia|now rewrite <- !app_assoc|congruence]. }
  split; [reflexivity|]. split; [reflexivity|].
  apply (Hfin _ 4%nat); [lia|now rewrite <- !app_assoc|auto].
Qed.

(** Whatever the count, [StreamInIndexBuffer] leaves the manager and the
    descriptor alone and only adds calls of its own list. *)
Lemma StreamInIndexBuffer_frame buffer data count srcType dstType flag s :
  let r := StreamInIndexBuffer buffer data count srcType dstType flag s in
  manager (snd r) = manager s /\ translated (snd r) = translated s /\
  exists n,
    trace (snd r)
    = trace s
      ++ firstn n (stream_events buffer data count srcType dstType flag) /\
    (isError (fst (fst r)) = false ->
     fst (fst r) = NoError /\ n = 4%nat /\
     count <= Z.shiftr UINT_MAX (bytesShift (GetTypeInfo dstType))).
Proof.
  destruct (Z_gt_le_dec count
              (Z.shiftr UINT_MAX (bytesShift (GetTypeInfo dstType))))
    as [Hgt|Hle].
  - rewrite (StreamInIndexBuffer_overflow _ _ _ _ _ _ _ Hgt).
    cbn [fst snd]. repeat split. exists 0%nat. cbn [firstn].
    rewrite app_nil_r. split; [reflexivity|]. cbn. discriminate.
  - pose proof (StreamInIndexBuffer_spec buffer data count srcType dstType
                  flag s Hle) as (Hm & Ht & n & _ & Htr & Hok).
    repeat split; try assumption. exists n. split; [assumption|].
    intros He. destruct (Hok He). auto.
Qed.

Lemma getStreamingIndexBuffer_spec ty s :
  let r := getStreamingIndexBuffer ty s in
  translated (snd r) = translated s /\
  (exists evs, trace (snd r) = trace s ++ evs /\ creation_events ty evs) /\
  (isError (fst (fst r)) = false ->
   exists ib,
     snd (fst r) = Some ib /\ streaming_member (manager (snd r)) ty = Some ib).
Proof.
  unfold getStreamingIndexBuffer, streaming_member. run.
  destruct (ty =? GL_UNSIGNED_INT) eqn:Hty.
  - destruct (mStreamingBufferInt (manager s)) as [b|] eqn:Hb.
    + cbn. repeat split.
      * exists []. rewrite app_nil_r. split; [reflexivity|now left].
      * eauto.
    + run. branch.
      * repeat split; [|congruence].
        eexists. rewrite <- app_assoc. split; [reflexivity|].
        right. eexists. reflexivity.
      * repeat split; [|eauto].
        eexists. rewrite <- app_assoc. split; [reflexivity|].
        right. eexists. reflexivity.
  - destruct (mStreamingBufferShort (manager s)) as [b|] eqn:Hb.
    + cbn. repeat split.
      * exists []. rewrite app_nil_r. split; [reflexivity|now left].
      * eauto.
    + run. branch.
      * repeat split; [|congruence].
        eexists. rewrite <- app_assoc. split; [reflexivity|].
        right. eexists. reflexivity.
      * repeat split; [|eauto].
        eexists. rewrite <- app_assoc. split; [reflexivity|].
        right. eexists. reflexivity.
Qed.

Lemma streamIndexData_spec data count srcType dstType flag s :
  let r := streamIndexData data count srcType dstType flag s in
  same_request (translated s) (translated (snd r)) /\
  exists pre ib n,
    creation_events dstType pre /\
    trace (snd r)
    = trace s ++ pre
      ++ firstn n (stream_events ib data count srcType dstType flag) /\
    (isError (fst r) = false ->
     fst r = NoError /\ n = 4%nat /\
     count <= Z.shiftr UINT_MAX (bytesShift (GetTypeInfo dstType)) /\
     streaming_member (manager (snd r)) dstType = Some ib /\
     indexBuffer (translated (snd r))
     = Some (getIndexBuffer ib (world (snd r))) /\
     serial (translated (snd r)) = getIndexSerial ib (world (snd r)) /\
     startIndex (translated (snd r))
     = Z.shiftr (startOffset (translated (snd r)))
         (bytesShift (GetTypeInfo dstType))).
Proof.
  unfold streamIndexData, bind.
  pose proof (getStreamingIndexBuffer_spec dstType s) as Hg.
  destruct (getStreamingIndexBuffer dstType s) as [[e ob] s1].
  cbn [fst snd] in Hg. destruct Hg as (Ht1 & (pre & Htr1 & Hpre) & Hok1).
  destruct (isError e) eqn:He.
  { unfold ret. cbn [fst snd]. split.
    - unfold same_request. rewrite Ht1. auto.
    - exists pre, 0, 0%nat. cbn [firstn]. rewrite app_nil_r.
      repeat split; try assumption. all: congruence. }
  destruct (Hok1 eq_refl) as (ib & -> & Hmem).
  pose proof (StreamInIndexBuffer_frame ib data count srcType dstType flag s1)
    as Hs.
  destruct (StreamInIndexBuffer ib data count srcType dstType flag s1)
    as [[e2 off] s2].
  cbn [fst snd] in Hs. destruct Hs as (Hm2 & Ht2 & n & Htr2 & Hn).
  destruct (isError e2) eqn:He2.
  { unfold ret. cbn [fst snd]. split.
    - unfold same_request. rewrite Ht2, Ht1. auto.
    - exists pre, ib, n. rewrite Htr2, Htr1, <- app_assoc.
      repeat split; try assumption. all: congruence. }
  run. destruct (Hn eq_refl) as (_ & -> & Hle). split.
  - unfold same_request, set_binding. cbn. rewrite Ht2, Ht1. auto.
  - exists pre, ib, 4%nat. rewrite Htr2, Htr1, <- app_assoc.
    split; [assumption|]. split; [reflexivity|]. intros _.
    rewrite Hm2. cbn. auto 10.
Qed.

End Streaming.

(** ** The paths of [prepareIndexData] *)

Section Paths.

Context {World : Type} {backend : Backend World}.

Implicit Types (s : State World) (data : list byte).

Lemma prepare_case1 srcType count indices fixed s :
  prepareIndexData srcType count None indices fixed s
  = streamIndexData (client_memory indices (world s)) (to_uint count) srcType
      (requested_type s srcType count fixed) fixed
      (request_state s srcType count None indices fixed).
Proof. reflexivity. Qed.

Lemma prepare_case2a srcType count buffer indices fixed s :
  binds_directly s buffer srcType (requested_type s srcType count fixed)
    (to_uint indices) = true ->
  prepareIndexData srcType count (Some buffer) indices fixed s
  = (NoError,
     mk_State (world s) (manager s)
       (set_binding None (getSerial buffer (world s))
          (Z.shiftr (to_uint indices) (bytesShift (GetTypeInfo srcType)))
          (to_uint indices)
          (set_storage (Some buffer)
             (set_srcIndexData
                (mk_SourceIndexData (Some buffer) indices srcType count)
                (set_indexType (requested_type s srcType count fixed)
                   (translated s)))))
       (trace s)).
Proof.
  unfold binds_directly, requested_type, prepareIndexData. run.
  intros ->. reflexivity.
Qed.

Lemma prepare_case2b srcType count buffer indices fixed s :
  let dstType := requested_type s srcType count fixed in
  let offset := to_uint indices in
  let aligned := offsetAligned srcType offset in
  let staticBuffer := getStaticIndexBuffer buffer (world s) in
  let initialized := staticBufferInitialized staticBuffer (world s) in
  let usable := staticBufferUsable staticBuffer aligned dstType (world s) in
  let s0 := request_state s srcType count (Some buffer) indices fixed in
  binds_directly s buffer srcType dstType offset = false ->
  prepareIndexData srcType count (Some buffer) indices fixed s
  = if initialized && negb usable
    then prepare_stream_block buffer offset count srcType dstType fixed
           (record (EvInvalidateStaticData buffer)
              (invalidateStaticData buffer (world s)) s0)
    else match (if aligned then staticBuffer else None) with
         | None =>
             prepare_stream_block buffer offset count srcType dstType fixed s0
         | Some sb =>
             prepare_static_block buffer sb initialized offset srcType dstType
               fixed s0
         end.
Proof.
  unfold binds_directly, requested_type, prepareIndexData, request_state.
  run. intros ->.
  destruct (staticBufferInitialized _ _ && negb _); run.
  - destruct (offsetAligned _ _); reflexivity.
  - destruct (if offsetAligned _ _ then _ else _); reflexivity.
Qed.

Lemma prepare_stream_block_spec buffer offset count srcType dstType fixed s :
  let r :=
    prepare_stream_block buffer offset count srcType dstType fixed s in
  let data := skipn (Z.to_nat offset) (snd (fst (getData buffer (world s)))) in
  let dataSize :=
    to_GLsizei (Z.shiftl count (bytesShift (GetTypeInfo srcType))) in
  same_request (translated s) (translated (snd r)) /\
  exists pre ib n,
    creation_events dstType pre /\
    (isError (fst r) = true ->
     trace (snd r)
     = trace s ++ EvGetData buffer :: pre
       ++ firstn n
            (stream_events ib data (to_uint count) srcType dstType fixed)) /\
    (isError (fst r) = false ->
     fst r = NoError /\
     trace (snd r)
     = trace s ++ EvGetData buffer :: pre
       ++ stream_events ib data (to_uint count) srcType dstType fixed
       ++ [EvPromoteStaticUsage buffer dataSize] /\
     streaming_member (manager (snd r)) dstType = Some ib /\
     exists w,
       world (snd r) = promoteStaticUsage buffer dataSize w /\
       indexBuffer (translated (snd r)) = Some (getIndexBuffer ib w) /\
       serial (translated (snd r)) = getIndexSerial ib w).
Proof.
  unfold prepare_stream_block. run.
  destruct (fst (getData buffer (world s))) as [e bufferData] eqn:Hgd.
  cbn [snd]. destruct (isError e) eqn:He; run.
  { split; [unfold same_request; auto|].
    exists [], 0, 0%nat. cbn [firstn app].
    split; [now left|]. split; [reflexivity|congruence]. }
  match goal with
  | |- context [streamIndexData ?d ?c ?st ?dt ?f ?s0] =>
      pose proof (streamIndexData_spec d c st dt f s0) as Hs;
      destruct (streamIndexData d c st dt f s0) as [e1 s1]
  end.
  cbn [fst snd trace translated] in Hs.
  destruct Hs as (Hreq & pre & ib & n & Hpre & Htr & Hok).
  destruct (isError e1) eqn:He1; run.
  { split; [exact Hreq|]. exists pre, ib, n.
    split; [assumption|]. split; [|congruence].
    intros _. rewrite Htr, <- app_assoc. reflexivity. }
  destruct (Hok eq_refl) as (_ & -> & _ & Hmem & Hib & Hser & _).
  split; [exact Hreq|]. exists pre, ib, 4%nat.
  split; [assumption|]. split; [cbn; congruence|]. intros _.
  split; [reflexivity|]. split.
  { rewrite Htr. cbn [firstn stream_events]. rewrite <- !app_assoc.
    reflexivity. }
  split; [assumption|]. exists (world s1). auto.
Qed.

Lemma prepare_static_block_spec buffer sb initialized offset srcType dstType
    fixed s :
  let r :=
    prepare_static_block buffer sb initialized offset srcType dstType fixed s
  in
  let data := snd (fst (getData buffer (world s))) in
  let convertCount :=
    Z.shiftr (to_uint (getSize buffer (snd (getData buffer (world s)))))
      (bytesShift (GetTypeInfo srcType)) in
  same_request (translated s) (translated (snd r)) /\
  manager (snd r) = manager s /\
  (initialized = true ->
   fst r = NoError /\ world (snd r) = world s /\ trace (snd r) = trace s) /\
  (initialized = false ->
   exists n,
     trace (snd r)
     = trace s ++ EvGetData buffer
       :: firstn n
            (stream_events sb data convertCount srcType dstType fixed) /\
     (isError (fst r) = false ->
      n = 4%nat /\
      convertCount <= Z.shiftr UINT_MAX (bytesShift (GetTypeInfo dstType)))) /\
  (isError (fst r) = false ->
   fst r = NoError /\
   indexBuffer (translated (snd r)) = Some (getIndexBuffer sb (world (snd r)))
   /\ serial (translated (snd r)) = getIndexSerial sb (world (snd r)) /\
   startIndex (translated (snd r))
   = Z.shiftr offset (bytesShift (GetTypeInfo srcType)) /\
   startOffset (translated (snd r))
   = to_uint
       (Z.shiftl (Z.shiftr offset (bytesShift (GetTypeInfo srcType)))
          (bytesShift (GetTypeInfo dstType)))).
Proof.
  unfold prepare_static_block. destruct initialized; run.
  { split; [unfold same_request, set_binding; cbn; auto|].
    split; [reflexivity|]. split; [auto|]. split; [discriminate|].
    intros _. cbn. auto 10. }
  destruct (fst (getData buffer (world s))) as [e bufferData] eqn:Hgd.
  cbn [snd]. destruct (isError e) eqn:He; run.
  { rewrite He. run. split; [unfold same_request; auto|].
    split; [reflexivity|]. split; [discriminate|]. split; [|congruence].
    intros _. exists 0%nat. cbn [firstn]. split; [reflexivity|congruence]. }
  match goal with
  | |- context [StreamInIndexBuffer ?b ?d ?c ?st ?dt ?f ?s0] =>
      pose proof (StreamInIndexBuffer_frame b d c st dt f s0) as Hs;
      destruct (StreamInIndexBuffer b d c st dt f s0) as [[e1 off] s1]
  end.
  cbn [fst snd trace translated manager] in Hs.
  destruct Hs as (Hm & Ht & n & Htr & Hok). cbn [fst snd].
  destruct (isError e1) eqn:He1; run.
  { split; [unfold same_request; rewrite Ht; auto|].
    split; [assumption|]. split; [discriminate|]. split; [|congruence].
    intros _. exists n. rewrite Htr, <- app_assoc.
    split; [reflexivity|congruence]. }
  destruct (Hok eq_refl) as (_ & -> & Hle).
  split; [unfold same_request, set_binding; cbn; rewrite Ht; auto|].
  split; [assumption|]. split; [discriminate|]. split.
  { intros _. exists 4%nat. rewrite Htr, <- app_assoc. auto. }
  intros _. cbn. auto 10.
Qed.

End Paths.

(** ** The request written to the descriptor *)

Section Request.

Context {World : Type} {backend : Backend World}.

Implicit Types (s : State World).

Lemma request_state_request s srcType count glBuffer indices fixed t :
  same_request
    (translated (request_state s srcType count glBuffer indices fixed)) t ->
  indexRange t = indexRange (translated s) /\
  storage t = None /\
  indexType t = requested_type s srcType count fixed /\
  srcIndexData t = mk_SourceIndexData glBuffer indices srcType count.
Proof. unfold same_request, request_state. cbn. auto. Qed.

Lemma prepare_request srcType count glBuffer indices fixed s :
  let r := prepareIndexData srcType count glBuffer indices fixed s in
  indexRange (translated (snd r)) = indexRange (translated s) /\
  indexType (translated (snd r)) = requested_type s srcType count fixed /\
  srcIndexData (translated (snd r))
  = mk_SourceIndexData glBuffer indices srcType count.
Proof.
  cbv zeta.
  assert (Hgen : forall t,
             same_request
               (translated
                  (request_state s srcType count glBuffer indices fixed)) t ->
             indexRange t = indexRange (translated s) /\
             indexType t = requested_type s srcType count fixed /\
             srcIndexData t
             = mk_SourceIndexData glBuffer indices srcType count).
  { intros t Ht. apply request_state_request in Ht. tauto. }
  destruct glBuffer as [buffer|].
  - destruct (binds_directly s buffer srcType
                (requested_type s srcType count fixed) (to_uint indices))
      eqn:Hd.
    + rewrite (prepare_case2a _ _ _ _ _ _ Hd). cbn. auto.
    + rewrite (prepare_case2b _ _ _ _ _ _ Hd).
      destruct (staticBufferInitialized _ _ && negb _).
      * apply Hgen.
        match goal with
        | |- context [prepare_stream_block ?b ?o ?c ?st ?dt ?f ?s0] =>
            exact (proj1 (prepare_stream_block_spec b o c st dt f s0))
        end.
      * destruct (if offsetAligned _ _ then _ else _) as [sb|]; apply Hgen.
        -- match goal with
           | |- context [prepare_static_block ?b ?sb ?i ?o ?st ?dt ?f ?s0] =>
               exact (proj1 (prepare_static_block_spec b sb i o st dt f s0))
           end.
        -- match goal with
           | |- context [prepare_stream_block ?b ?o ?c ?st ?dt ?f ?s0] =>
               exact (proj1 (prepare_stream_block_spec b o c st dt f s0))
           end.
  - rewrite prepare_case1. apply Hgen.
    match goal with
    | |- context [streamIndexData ?d ?c ?st ?dt ?f ?s0] =>
        exact (proj1 (streamIndexData_spec d c st dt f s0))
    end.
Qed.

(** C10. No atomicity of the descriptor.  Whatever a call of
    [prepareIndexData] returns, an error included, the descriptor it leaves
    holds the destination index type computed for this call and the source
    data of this call (buffer, pointer, source type and count). *)
Theorem prepare_overwrites_descriptor_on_every_path
    srcType count glBuffer indices fixed s :
  let r := prepareIndexData srcType count glBuffer indices fixed s in
  indexType (translated (snd r)) = requested_type s srcType count fixed /\
  srcBuffer (srcIndexData (translated (snd r))) = glBuffer /\
  srcIndices (srcIndexData (translated (snd r))) = indices /\
  srcIndexType (srcIndexData (translated (snd r))) = srcType /\
  srcCount (srcIndexData (translated (snd r))) = count.
Proof.
  cbv zeta.
  destruct (prepare_request srcType count glBuffer indices fixed s)
    as (_ & Hty & Hsrc).
  rewrite Hty, Hsrc. cbn. auto.
Qed.

Lemma destinationType_cases srcType workaround :
  destinationType srcType workaround = GL_UNSIGNED_INT /\
  (srcType = GL_UNSIGNED_INT \/ workaround = true)
  \/
  destinationType srcType workaround = GL_UNSIGNED_SHORT /\
  srcType <> GL_UNSIGNED_INT /\ workaround = false.
Proof.
  unfold destinationType.
  destruct (srcType =? GL_UNSIGNED_INT) eqn:E; cbn [orb].
  - left. apply Z.eqb_eq in E. auto.
  - apply Z.eqb_neq in E. destruct workaround; [left|right]; auto.
Qed.

Lemma primitiveRestartWorkaround_true rendererClass range srcType count fixed :
  primitiveRestartWorkaround rendererClass range srcType count fixed = true
  <->
  fixed = false /\ srcType = GL_UNSIGNED_SHORT /\
  rendererClass = RENDERER_D3D11 /\
  (vertexIndexCount range < to_size_t count \/
   range_end range = GetPrimitiveRestartIndex srcType).
Proof.
  unfold primitiveRestartWorkaround, UsePrimitiveRestartWorkaround,
    hasPrimitiveRestartIndex.
  rewrite !andb_true_iff, orb_true_iff, negb_true_iff, !Z.eqb_eq, Z.ltb_lt.
  destruct rendererClass; cbn [RendererClass_eqb]; intuition congruence.
Qed.

(** C2. Format policy.  For a call with a non-negative [GLsizei] count: the
    restart workaround is active iff the fixed-restart flag is off, the
    source type is 16-bit, the renderer is D3D11 and the scanned range shows
    a restart index (it covers fewer vertices than the count, or it ends at
    the maximum of the source width).  The destination type written to the
    descriptor is 32-bit iff the source is 32-bit or the workaround is
    active, and 16-bit otherwise; so an 8-bit source always gets 16 bits, and
    the destination of an index type is never narrower than the source. *)
Theorem prepare_format_policy srcType count glBuffer indices fixed s :
  0 <= count <= 2 ^ 31 - 1 ->
  let range := indexRange (translated s) in
  let workaround :=
    primitiveRestartWorkaround (mRendererClass (manager s)) range srcType
      count fixed in
  let dstType :=
    indexType
      (translated
         (snd (prepareIndexData srcType count glBuffer indices fixed s))) in
  (workaround = true <->
   fixed = false /\ srcType = GL_UNSIGNED_SHORT /\
   mRendererClass (manager s) = RENDERER_D3D11 /\
   (vertexIndexCount range < count \/
    range_end range = 2 ^ (8 * bytes (GetTypeInfo srcType)) - 1)) /\
  (dstType = GL_UNSIGNED_INT <->
   srcType = GL_UNSIGNED_INT \/ workaround = true) /\
  (dstType <> GL_UNSIGNED_INT -> dstType = GL_UNSIGNED_SHORT) /\
  (srcType = GL_UNSIGNED_BYTE -> dstType = GL_UNSIGNED_SHORT) /\
  (IsIndexType srcType ->
   bytes (GetTypeInfo srcType) <= bytes (GetTypeInfo dstType)).
Proof.
  intros Hcount range workaround dstType.
  assert (Hdst : dstType = destinationType srcType workaround).
  { subst dstType.
    destruct (prepare_request srcType count glBuffer indices fixed s)
      as (_ & Hty & _).
    exact Hty. }
  assert (Hsize : to_size_t count = count).
  { unfold to_size_t. apply Z.mod_small. lia. }
  assert (Hw : workaround = true <->
               fixed = false /\ srcType = GL_UNSIGNED_SHORT /\
               mRendererClass (manager s) = RENDERER_D3D11 /\
               (vertexIndexCount range < count \/
                range_end range = 2 ^ (8 * bytes (GetTypeInfo srcType)) - 1)).
  { subst workaround. rewrite primitiveRestartWorkaround_true, Hsize.
    split; intros (Hf & Hs & Hr & Hp); repeat split; try assumption;
      rewrite Hs in *; exact Hp. }
  split; [exact Hw|]. rewrite Hdst.
  destruct (destinationType_cases srcType workaround)
    as [(-> & Hc)|(-> & Hne & Hwf)].
  - split; [tauto|]. split; [congruence|]. split.
    + intros ->. destruct Hc as [Hc|Hc]; [discriminate Hc|].
      apply Hw in Hc. destruct Hc as (_ & Hc & _). discriminate Hc.
    + intros [->| [->| ->]]; vm_compute; discriminate.
  - split.
    + split; [discriminate|]. intros [Hc|Hc]; congruence.
    + split; [reflexivity|]. split; [reflexivity|].
      intros [->| [->| ->]]; [vm_compute; discriminate..|congruence].
Qed.

End Request.

Lemma prepare_format_policy_witness :
  let s :=
    TestBackend.initial_state (TestBackend.world_of [] false None)
      RENDERER_D3D11 65535 2 in
  indexType
    (translated (snd (prepareIndexData GL_UNSIGNED_SHORT 3 None 0 false s)))
  = GL_UNSIGNED_INT.
Proof.
  intros s.
  assert (Hcount : 0 <= 3 <= 2 ^ 31 - 1) by lia.
  destruct (prepare_format_policy GL_UNSIGNED_SHORT 3 None 0 false s Hcount)
    as (_ & Hint & _).
  apply Hint. right. reflexivity.
Defined.

(** ** Capacity of a streamed write *)

Section Capacity.

Context {World : Type} {backend : Backend World}.

Implicit Types (s : State World) (data : list byte).

Lemma index_type_info type :
  IsIndexType type ->
  GetTypeInfo type = mk_gl_Type 1 0 \/
  GetTypeInfo type = mk_gl_Type 2 1 \/
  GetTypeInfo type = mk_gl_Type 4 2.
Proof. intros [->| [->| ->]]; auto. Qed.

Lemma shift_is_scaling type (v : Z) :
  IsIndexType type ->
  Z.shiftl v (bytesShift (GetTypeInfo type)) = v * bytes (GetTypeInfo type) /\
  Z.shiftr v (bytesShift (GetTypeInfo type)) = v / bytes (GetTypeInfo type).
Proof.
  intros Hty.
  destruct (index_type_info type Hty) as [-> | [-> | ->]];
    cbn [bytes bytesShift];
    rewrite Z.shiftl_mul_pow2, Z.shiftr_div_pow2 by lia; auto.
Qed.

Lemma capacity_check type (count : Z) :
  IsIndexType type ->
  (count > Z.shiftr UINT_MAX (bytesShift (GetTypeInfo type)) <->
   count * bytes (GetTypeInfo type) > UINT_MAX).
Proof.
  intros Hty.
  destruct (index_type_info type Hty) as [-> | [-> | ->]];
    cbn [bytes bytesShift].
  - change (Z.shiftr UINT_MAX 0) with 4294967295.
    change UINT_MAX with 4294967295. lia.
  - change (Z.shiftr UINT_MAX 1) with 2147483647.
    change UINT_MAX with 4294967295. lia.
  - change (Z.shiftr UINT_MAX 2) with 1073741823.
    change UINT_MAX with 4294967295. lia.
Qed.

(** C8. Capacity failure of a streamed write.  For a destination index type
    and an [unsigned int] count: the count exceeds the maximum [unsigned int]
    shifted down by the element size exactly when count times the element
    size overflows [unsigned int]; then [StreamInIndexBuffer] returns an
    out-of-memory error and leaves the state as it was, so that nothing was
    reserved, mapped or converted.  Otherwise the check raises no error: the
    next thing that happens is the reservation of exactly count times the
    element size bytes, and an out-of-memory error of the call, if any, is
    one that the reservation, the mapping or the unmapping returned. *)
Theorem StreamInIndexBuffer_capacity_check
    buffer data count srcType dstType flag s :
  IsIndexType dstType ->
  0 <= count <= UINT_MAX ->
  let dstTypeInfo := GetTypeInfo dstType in
  let r := StreamInIndexBuffer buffer data count srcType dstType flag s in
  (count > Z.shiftr UINT_MAX (bytesShift dstTypeInfo) <->
   count * bytes dstTypeInfo > UINT_MAX) /\
  (count * bytes dstTypeInfo > UINT_MAX -> r = (OutOfMemory, 0, s)) /\
  (count * bytes dstTypeInfo <= UINT_MAX ->
   exists evs,
     trace (snd r)
     = trace s
       ++ EvReserveBufferSpace buffer (count * bytes dstTypeInfo) dstType
       :: evs) /\
  (count * bytes dstTypeInfo <= UINT_MAX ->
   fst (fst r) = OutOfMemory ->
   exists w,
     fst (reserveBufferSpace buffer (count * bytes dstTypeInfo) dstType w)
     = OutOfMemory \/
     fst (fst (mapBuffer buffer (count * bytes dstTypeInfo) w)) = OutOfMemory
     \/ fst (unmapBuffer buffer w) = OutOfMemory).
Proof.
  intros Hty Hcount dstTypeInfo r.
  pose proof (capacity_check dstType count Hty) as Hiff.
  assert (Hsz : count * bytes dstTypeInfo <= UINT_MAX ->
                to_uint (Z.shiftl count (bytesShift (GetTypeInfo dstType)))
                = count * bytes dstTypeInfo).
  { intros Hfit.
    destruct (shift_is_scaling dstType count Hty) as [-> _].
    fold dstTypeInfo.
    assert (Hpos : 0 <= bytes dstTypeInfo).
    { subst dstTypeInfo.
      destruct (index_type_info dstType Hty) as [-> | [-> | ->]];
        cbn [bytes]; lia. }
    unfold to_uint. apply Z.mod_small.
    change UINT_MAX with 4294967295 in Hfit.
    change (2 ^ 32) with 4294967296. nia. }
  split; [exact Hiff|]. split; [|split].
  - intros Hover. apply Hiff in Hover.
    exact (StreamInIndexBuffer_overflow buffer data count srcType dstType
             flag s Hover).
  - intros Hfit.
    assert (Hle : count
                  <= Z.shiftr UINT_MAX (bytesShift (GetTypeInfo dstType)))
      by (subst dstTypeInfo; lia).
    destruct (StreamInIndexBuffer_spec buffer data count srcType dstType flag
                s Hle) as (_ & _ & n & Hn & Htr & _).
    fold r in Htr. rewrite Htr.
    destruct n as [|n]; [lia|].
    cbn [stream_events firstn]. rewrite (Hsz Hfit).
    eexists. reflexivity.
  - intros Hfit. subst r. unfold StreamInIndexBuffer.
    destruct (count >? _) eqn:E.
    { rewrite Z.gtb_ltb, Z.ltb_lt in E. apply Z.lt_gt in E.
      apply Hiff in E. unfold dstTypeInfo in Hfit. lia. }
    rewrite (Hsz Hfit). run. branch.
    { intros He. eexists. left. exact He. }
    branch. branch.
    { intros He. eexists. right. left.
      match goal with H : fst (mapBuffer _ _ _) = _ |- _ => rewrite H end.
      exact He. }
    branch.
    { intros He. eexists. right. right. exact He. }
    discriminate.
Qed.

End Capacity.

Lemma StreamInIndexBuffer_capacity_check_witness :
  let s :=
    TestBackend.initial_state (TestBackend.world_of [] false None)
      RENDERER_D3D11 0 0 in
  StreamInIndexBuffer TestBackend.streaming_ref [] (2 ^ 31)
    GL_UNSIGNED_BYTE GL_UNSIGNED_SHORT false s
  = (OutOfMemory, 0, s).
Proof.
  intros s.
  assert (Hty : IsIndexType GL_UNSIGNED_SHORT) by (right; left; reflexivity).
  assert (Hcount : 0 <= 2 ^ 31 <= UINT_MAX) by (vm_compute; split; discriminate).
  destruct (StreamInIndexBuffer_capacity_check TestBackend.streaming_ref []
              (2 ^ 31) GL_UNSIGNED_BYTE GL_UNSIGNED_SHORT false s Hty Hcount)
    as (_ & Hover & _).
  apply Hover. vm_compute. reflexivity.
Defined.

(** ** Buffer-backed draws *)

Section Buffers.

Context {World : Type} {backend : Backend World}.

Implicit Types (s : State World) (data : list byte).

Lemma destinationType_is_index_type srcType workaround :
  IsIndexType (destinationType srcType workaround).
Proof.
  destruct (destinationType_cases srcType workaround) as [[-> _]|[-> _]];
    unfold IsIndexType; auto.
Qed.

Lemma offsetAligned_true srcType offset :
  offsetAligned srcType offset = true ->
  IsIndexType srcType /\ offset mod bytes (GetTypeInfo srcType) = 0.
Proof.
  unfold offsetAligned, IsIndexType, GetTypeInfo.
  destruct (srcType =? GL_UNSIGNED_BYTE) eqn:Eb.
  { apply Z.eqb_eq in Eb. cbn [bytes]. rewrite Z.eqb_eq. auto. }
  destruct (srcType =? GL_UNSIGNED_SHORT) eqn:Es.
  { apply Z.eqb_eq in Es. cbn [bytes]. rewrite Z.eqb_eq. auto. }
  destruct (srcType =? GL_UNSIGNED_INT) eqn:Ei.
  { apply Z.eqb_eq in Ei. cbn [bytes]. rewrite Z.eqb_eq. auto. }
  discriminate.
Qed.

Lemma offsetAligned_of_multiple srcType offset :
  IsIndexType srcType ->
  offset mod bytes (GetTypeInfo srcType) = 0 ->
  offsetAligned srcType offset = true.
Proof.
  intros [->| [->| ->]] H; unfold offsetAligned; cbn in *;
    now apply Z.eqb_eq.
Qed.

(** C5. Direct binding.  For a buffer-backed call whose byte offset is a
    multiple of the source element size, whose destination type equals the
    source type and whose buffer supports direct binding: the call succeeds;
    no collaborator is called and the world is as before, so that nothing was
    read, converted or copied; the descriptor's storage is the source buffer
    itself, with no index buffer, the start index is the byte offset divided
    by the source element size and the start offset is the byte offset. *)
Theorem prepare_direct_binding srcType count buffer indices fixed s :
  let offset := to_uint indices in
  let dstType := requested_type s srcType count fixed in
  offset mod bytes (GetTypeInfo srcType) = 0 ->
  dstType = srcType ->
  supportsDirectBinding buffer (world s) = true ->
  let r := prepareIndexData srcType count (Some buffer) indices fixed s in
  fst r = NoError /\
  world (snd r) = world s /\ manager (snd r) = manager s /\
  trace (snd r) = trace s /\
  storage (translated (snd r)) = Some buffer /\
  indexBuffer (translated (snd r)) = None /\
  serial (translated (snd r)) = getSerial buffer (world s) /\
  startIndex (translated (snd r)) = offset / bytes (GetTypeInfo srcType) /\
  startOffset (translated (snd r)) = offset /\
  (0 <= indices <= UINT_MAX -> startOffset (translated (snd r)) = indices).
Proof.
  intros offset dstType Hmul Hsame Hdirect r.
  assert (Hty : IsIndexType srcType).
  { rewrite <- Hsame. apply destinationType_is_index_type. }
  assert (Hd : binds_directly s buffer srcType dstType offset = true).
  { unfold binds_directly.
    rewrite (offsetAligned_of_multiple _ _ Hty Hmul), Hdirect, Hsame,
      Z.eqb_refl.
    reflexivity. }
  subst r. rewrite (prepare_case2a _ _ _ _ _ _ Hd). cbn.
  destruct (shift_is_scaling srcType (to_uint indices) Hty) as [_ ->].
  repeat (split; [reflexivity|]). intros Hrange.
  unfold to_uint. apply Z.mod_small. unfold UINT_MAX in Hrange. lia.
Qed.

Lemma to_GLsizei_small (v : Z) : 0 <= v <= 2 ^ 31 - 1 -> to_GLsizei v = v.
Proof.
  intros Hv. unfold to_GLsizei.
  rewrite Z.mod_small by (change (2 ^ 32) with (2 ^ 31 + 2 ^ 31); lia). lia.
Qed.

Lemma to_uint_range (v : Z) : 0 <= to_uint v <= UINT_MAX.
Proof.
  unfold to_uint, UINT_MAX.
  pose proof (Z.mod_pos_bound v (2 ^ 32) ltac:(lia)). lia.
Qed.





(** *** What the events of a path can be *)

Lemma Forall_take {A} (P : A -> Prop) (n : nat) (l : list A) :
  Forall P l -> Forall P (firstn n l).
Proof.
  intros H. revert n. induction H as [|x l Hx Hl IH]; intros [|n];
    cbn [firstn]; auto.
Qed.

Lemma stream_events_converts buffer data count srcType dstType flag n :
  Forall (converts_only srcType dstType)
    (firstn n (stream_events buffer data count srcType dstType flag)).
Proof.
  apply Forall_take. unfold stream_events.
  repeat constructor.
Qed.

Lemma stream_events_no_promotion buffer data count srcType dstType flag n :
  Forall not_promotion
    (firstn n (stream_events buffer data count srcType dstType flag)).
Proof.
  apply Forall_take. unfold stream_events.
  repeat constructor.
Qed.

Lemma creation_events_converts srcType dstType pre :
  creation_events dstType pre -> Forall (converts_only srcType dstType) pre.
Proof. intros [-> | [nb ->]]; repeat constructor. Qed.

Lemma creation_events_no_promotion dstType pre :
  creation_events dstType pre -> Forall not_promotion pre.
Proof. intros [-> | [nb ->]]; repeat constructor. Qed.

(** The condition on which Case 2b streams: no static buffer, an unaligned
    offset, or a static buffer that is initialized and not usable (and is
    invalidated). *)
Lemma prepare_streaming_fallback srcType count buffer indices fixed s :
  let offset := to_uint indices in
  let dstType := requested_type s srcType count fixed in
  let staticBuffer := getStaticIndexBuffer buffer (world s) in
  let initialized := staticBufferInitialized staticBuffer (world s) in
  let usable :=
    staticBufferUsable staticBuffer (offsetAligned srcType offset) dstType
      (world s) in
  let s0 := request_state s srcType count (Some buffer) indices fixed in
  binds_directly s buffer srcType dstType offset = false ->
  staticBuffer = None \/ offsetAligned srcType offset = false \/
  (initialized = true /\ usable = false) ->
  prepareIndexData srcType count (Some buffer) indices fixed s
  = prepare_stream_block buffer offset count srcType dstType fixed
      (if initialized && negb usable
       then record (EvInvalidateStaticData buffer)
              (invalidateStaticData buffer (world s)) s0
       else s0).
Proof.
  intros offset dstType staticBuffer initialized usable s0 Hnd Hfall.
  rewrite (prepare_case2b _ _ _ _ _ _ Hnd).
  fold offset dstType staticBuffer initialized usable s0.
  destruct (initialized && negb usable) eqn:Hinv; [reflexivity|].
  destruct Hfall as [-> | [-> | [Hi Hu]]].
  - destruct (offsetAligned srcType offset); reflexivity.
  - reflexivity.
  - rewrite Hi, Hu in Hinv. discriminate Hinv.
Qed.

(** Case 2b has no third way: a call that does not stream uses the static
    buffer, which is then empty or of the destination type. *)
Lemma case2b_streams_or_uses_static srcType buffer s dstType offset :
  let staticBuffer := getStaticIndexBuffer buffer (world s) in
  let initialized := staticBufferInitialized staticBuffer (world s) in
  let usable :=
    staticBufferUsable staticBuffer (offsetAligned srcType offset) dstType
      (world s) in
  (staticBuffer = None \/ offsetAligned srcType offset = false \/
   (initialized = true /\ usable = false))
  \/
  (exists sb,
     staticBuffer = Some sb /\ offsetAligned srcType offset = true /\
     (getBufferSize sb (world s) <> 0 -> getIndexType sb (world s) = dstType)).
Proof.
  cbv zeta. destruct (getStaticIndexBuffer buffer (world s)) as [sb|];
    [|left; left; reflexivity].
  destruct (offsetAligned srcType offset) eqn:Hal; [|left; right; left; auto].
  cbn [staticBufferInitialized staticBufferUsable andb].
  destruct (getBufferSize sb (world s) =? 0) eqn:Hz.
  - right. exists sb. apply Z.eqb_eq in Hz. repeat split. congruence.
  - destruct (getIndexType sb (world s) =? dstType) eqn:Ht.
    + right. exists sb. apply Z.eqb_eq in Ht. auto.
    + left. right. right. auto.
Qed.

(** C7. Invalidation of a stale static buffer.  For a buffer-backed call that
    reaches Case 2b with a static buffer that is initialized (its size is not
    zero) and whose index type is not the destination type of this call: the
    first call made is the invalidation of the buffer's static data, and what
    follows is the streaming block, run in the invalidated world, which
    starts by reading the buffer's data; on success it streamed through the
    manager's streaming buffer of the destination type and promoted the
    buffer's usage. *)
Theorem prepare_invalidates_stale_static_buffer
    srcType count buffer indices fixed sb s :
  let offset := to_uint indices in
  let dstType := requested_type s srcType count fixed in
  binds_directly s buffer srcType dstType offset = false ->
  getStaticIndexBuffer buffer (world s) = Some sb ->
  getBufferSize sb (world s) <> 0 ->
  getIndexType sb (world s) <> dstType ->
  let r := prepareIndexData srcType count (Some buffer) indices fixed s in
  let s0 := request_state s srcType count (Some buffer) indices fixed in
  let invalidated := invalidateStaticData buffer (world s) in
  let data :=
    skipn (Z.to_nat offset) (snd (fst (getData buffer invalidated))) in
  r = prepare_stream_block buffer offset count srcType dstType fixed
        (mk_State invalidated (manager s) (translated s0)
           (trace s ++ [EvInvalidateStaticData buffer])) /\
  (exists evs,
     trace (snd r)
     = trace s ++ EvInvalidateStaticData buffer :: EvGetData buffer :: evs) /\
  (fst r = NoError ->
   exists pre ib,
     creation_events dstType pre /\
     streaming_member (manager (snd r)) dstType = Some ib /\
     trace (snd r)
     = trace s ++ EvInvalidateStaticData buffer :: EvGetData buffer :: pre
       ++ stream_events ib data (to_uint count) srcType dstType fixed
       ++ [EvPromoteStaticUsage buffer
             (to_GLsizei
                (Z.shiftl count (bytesShift (GetTypeInfo srcType))))]).
Proof.
  intros offset dstType Hnd Hsb Hsize Htype r s0 invalidated data.
  assert (Hi : staticBufferInitialized (Some sb) (world s) = true).
  { cbn [staticBufferInitialized]. apply Z.eqb_neq in Hsize.
    now rewrite Hsize. }
  assert (Hu : staticBufferUsable (Some sb) (offsetAligned srcType offset)
                 dstType (world s) = false).
  { cbn [staticBufferUsable]. apply Z.eqb_neq in Htype. rewrite Htype.
    apply andb_false_r. }
  assert (Hpath :
            r = prepare_stream_block buffer offset count srcType dstType fixed
                  (mk_State invalidated (manager s) (translated s0)
                     (trace s ++ [EvInvalidateStaticData buffer]))).
  { subst r. rewrite (prepare_streaming_fallback _ _ _ _ _ _ Hnd).
    - rewrite Hsb. fold offset dstType. rewrite Hi, Hu. reflexivity.
    - right. right. rewrite Hsb. fold offset dstType. auto. }
  split; [exact Hpath|].
  pose proof (prepare_stream_block_spec buffer offset count srcType dstType
                fixed
                (mk_State invalidated (manager s) (translated s0)
                   (trace s ++ [EvInvalidateStaticData buffer]))) as Hspec.
  cbv zeta in Hspec. rewrite <- Hpath in Hspec. cbn [world trace] in Hspec.
  fold data in Hspec.
  destruct Hspec as (_ & pre & ib & n & Hpre & Herr & Hok).
  split.
  - destruct (isError (fst r)) eqn:He.
    + rewrite (Herr eq_refl), <- app_assoc. eexists. reflexivity.
    + destruct (Hok eq_refl) as (_ & -> & _). rewrite <- app_assoc.
      eexists. reflexivity.
  - intros Hno. rewrite Hno in Hok.
    destruct (Hok eq_refl) as (_ & Htr & Hmem & _).
    exists pre, ib. split; [assumption|]. split; [assumption|].
    rewrite Htr, <- app_assoc. reflexivity.
Qed.

(** C4, as the code has it.  For a buffer-backed call that falls back to
    streaming in Case 2b (no static buffer, an unaligned offset, or a static
    buffer just invalidated): when the read of the buffer and the streamed
    conversion succeed, the last call made is the promotion of the buffer's
    static usage, after the calls of the streamed write, and it is the only
    promotion; its argument is the data size of the draw, count shifted by
    the shift of the source element size, which is count times the source
    element size in bytes, not the count of elements.  When the call fails
    no usage is promoted. *)
Theorem prepare_streaming_fallback_promotes_data_size
    srcType count buffer indices fixed s :
  let offset := to_uint indices in
  let dstType := requested_type s srcType count fixed in
  let staticBuffer := getStaticIndexBuffer buffer (world s) in
  let initialized := staticBufferInitialized staticBuffer (world s) in
  let usable :=
    staticBufferUsable staticBuffer (offsetAligned srcType offset) dstType
      (world s) in
  binds_directly s buffer srcType dstType offset = false ->
  staticBuffer = None \/ offsetAligned srcType offset = false \/
  (initialized = true /\ usable = false) ->
  let r := prepareIndexData srcType count (Some buffer) indices fixed s in
  let dataSize :=
    to_GLsizei (Z.shiftl count (bytesShift (GetTypeInfo srcType))) in
  (fst r = NoError ->
   exists evs ib data,
     Forall not_promotion evs /\
     trace (snd r)
     = trace s ++ evs
       ++ stream_events ib data (to_uint count) srcType dstType fixed
       ++ [EvPromoteStaticUsage buffer dataSize]) /\
  (isError (fst r) = true ->
   exists evs, Forall not_promotion evs /\ trace (snd r) = trace s ++ evs) /\
  (IsIndexType srcType ->
   0 <= count -> count * bytes (GetTypeInfo srcType) <= 2 ^ 31 - 1 ->
   dataSize = count * bytes (GetTypeInfo srcType)).
Proof.
  intros offset dstType staticBuffer initialized usable Hnd Hfall r dataSize.
  pose proof (prepare_streaming_fallback srcType count buffer indices fixed s
                Hnd Hfall) as Hpath.
  fold r offset dstType staticBuffer initialized usable in Hpath.
  set (s0 := request_state s srcType count (Some buffer) indices fixed)
    in Hpath.
  set (s1 := if initialized && negb usable
             then record (EvInvalidateStaticData buffer)
                    (invalidateStaticData buffer (world s)) s0
             else s0) in Hpath.
  assert (Hs1 : exists inv,
             trace s1 = trace s ++ inv /\ Forall not_promotion inv).
  { subst s1. destruct (initialized && negb usable).
    - exists [EvInvalidateStaticData buffer]. split; [reflexivity|].
      repeat constructor.
    - exists []. split; [cbn; now rewrite app_nil_r|constructor]. }
  destruct Hs1 as (inv & Hinv & Hinvp).
  pose proof (prepare_stream_block_spec buffer offset count srcType dstType
                fixed s1) as Hspec.
  cbv zeta in Hspec. rewrite <- Hpath in Hspec.
  destruct Hspec as (_ & pre & ib & n & Hpre & Herr & Hok).
  split; [|split].
  - intros Hno. rewrite Hno in Hok. destruct (Hok eq_refl) as (_ & Htr & _).
    exists (inv ++ EvGetData buffer :: pre), ib,
      (skipn (Z.to_nat offset) (snd (fst (getData buffer (world s1))))).
    split.
    + apply Forall_app. split; [assumption|]. constructor; [exact I|].
      apply (creation_events_no_promotion _ _ Hpre).
    + rewrite Htr, Hinv, <- !app_assoc. reflexivity.
  - intros He. rewrite (Herr He), Hinv. eexists. split.
    2:{ rewrite <- app_assoc. reflexivity. }
    apply Forall_app. split; [assumption|]. constructor; [exact I|].
    apply Forall_app. split.
    + apply (creation_events_no_promotion _ _ Hpre).
    + apply stream_events_no_promotion.
  - intros Hty Hc Hfit. subst dataSize.
    destruct (shift_is_scaling srcType count Hty) as [-> _].
    apply to_GLsizei_small.
    assert (0 <= bytes (GetTypeInfo srcType)).
    { destruct (index_type_info srcType Hty) as [-> | [-> | ->]];
        cbn [bytes]; lia. }
    nia.
Qed.

(** *** The converter on every path *)

Lemma prepare_stream_block_events buffer offset count srcType dstType fixed
    s :
  let r :=
    prepare_stream_block buffer offset count srcType dstType fixed s in
  exists evs,
    trace (snd r) = trace s ++ evs /\
    Forall (converts_only srcType dstType) evs.
Proof.
  cbv zeta.
  destruct (prepare_stream_block_spec buffer offset count srcType dstType
              fixed s) as (_ & pre & ib & n & Hpre & Herr & Hok).
  destruct (isError
              (fst (prepare_stream_block buffer offset count srcType dstType
                      fixed s))) eqn:He.
  - rewrite (Herr eq_refl). eexists. split; [reflexivity|].
    constructor; [exact I|]. apply Forall_app. split.
    + apply (creation_events_converts _ _ _ Hpre).
    + apply stream_events_converts.
  - destruct (Hok eq_refl) as (_ & -> & _). eexists. split; [reflexivity|].
    constructor; [exact I|]. apply Forall_app. split.
    + apply (creation_events_converts _ _ _ Hpre).
    + apply Forall_app. split.
      * apply (stream_events_converts _ _ _ _ _ _ 4).
      * repeat constructor.
Qed.

Lemma prepare_static_block_events buffer sb initialized offset srcType
    dstType fixed s :
  let r :=
    prepare_static_block buffer sb initialized offset srcType dstType fixed s
  in
  exists evs,
    trace (snd r) = trace s ++ evs /\
    Forall (converts_only srcType dstType) evs.
Proof.
  cbv zeta.
  destruct (prepare_static_block_spec buffer sb initialized offset srcType
              dstType fixed s) as (_ & _ & Hinit & Hbuild & _).
  destruct initialized.
  - destruct (Hinit eq_refl) as (_ & _ & ->). exists [].
    rewrite app_nil_r. split; [reflexivity|constructor].
  - destruct (Hbuild eq_refl) as (n & -> & _). eexists.
    split; [reflexivity|]. constructor; [exact I|].
    apply stream_events_converts.
Qed.

Lemma prepare_events srcType count glBuffer indices fixed s :
  let r := prepareIndexData srcType count glBuffer indices fixed s in
  exists evs,
    trace (snd r) = trace s ++ evs /\
    Forall (converts_only srcType (requested_type s srcType count fixed)) evs.
Proof.
  cbv zeta. destruct glBuffer as [buffer|].
  - destruct (binds_directly s buffer srcType
                (requested_type s srcType count fixed) (to_uint indices))
      eqn:Hd.
    + rewrite (prepare_case2a _ _ _ _ _ _ Hd). exists [].
      cbn [snd trace]. rewrite app_nil_r. split; [reflexivity|constructor].
    + rewrite (prepare_case2b _ _ _ _ _ _ Hd).
      destruct (staticBufferInitialized _ _ && negb _).
      * match goal with
        | |- context [prepare_stream_block ?b ?o ?c ?st ?dt ?f ?s0] =>
            destruct (prepare_stream_block_events b o c st dt f s0)
              as (evs & Htr & Hev)
        end.
        rewrite Htr. cbn [record trace request_state].
        rewrite <- app_assoc. eexists. split; [reflexivity|].
        constructor; [exact I|assumption].
      * destruct (if offsetAligned _ _ then _ else _) as [sb|].
        -- match goal with
           | |- context [prepare_static_block ?b ?x ?i ?o ?st ?dt ?f ?s0] =>
               destruct (prepare_static_block_events b x i o st dt f s0)
                 as (evs & Htr & Hev)
           end.
           rewrite Htr. eexists. split; [reflexivity|assumption].
        -- match goal with
           | |- context [prepare_stream_block ?b ?o ?c ?st ?dt ?f ?s0] =>
               destruct (prepare_stream_block_events b o c st dt f s0)
                 as (evs & Htr & Hev)
           end.
           rewrite Htr. eexists. split; [reflexivity|assumption].
  - rewrite prepare_case1.
    match goal with
    | |- context [streamIndexData ?d ?c ?st ?dt ?f ?s0] =>
        destruct (streamIndexData_spec d c st dt f s0)
          as (_ & pre & ib & n & Hpre & Htr & _)
    end.
    rewrite Htr. eexists. split; [reflexivity|].
    apply Forall_app. split.
    + apply (creation_events_converts _ _ _ Hpre).
    + apply stream_events_converts.
Qed.

(** C9. Input contract of the converter.  For a source type of the closed
    set (8, 16 or 32 bits), the pair of types of a call is equal types, 8 to
    16 bits or 16 to 32 bits, so the destination is never narrower than the
    source; on such a pair [ConvertIndices] copies or widens with its ASSERT
    true and does not reach UNREACHABLE; and every conversion a call of
    [prepareIndexData] makes, on any of its paths, is on this pair. *)
Theorem prepare_converter_contract srcType count glBuffer indices fixed s :
  IsIndexType srcType ->
  let dstType := requested_type s srcType count fixed in
  let r := prepareIndexData srcType count glBuffer indices fixed s in
  (srcType = dstType \/
   (srcType = GL_UNSIGNED_BYTE /\ dstType = GL_UNSIGNED_SHORT) \/
   (srcType = GL_UNSIGNED_SHORT /\ dstType = GL_UNSIGNED_INT)) /\
  bytes (GetTypeInfo srcType) <= bytes (GetTypeInfo dstType) /\
  ConvertIndices_branch srcType dstType <> BranchUnreachable /\
  converter_contract srcType dstType /\
  exists evs,
    trace (snd r) = trace s ++ evs /\
    Forall (converts_only srcType dstType) evs.
Proof.
  intros Hty dstType r.
  assert (Hpair : srcType = dstType \/
                  (srcType = GL_UNSIGNED_BYTE /\ dstType = GL_UNSIGNED_SHORT)
                  \/ (srcType = GL_UNSIGNED_SHORT
                      /\ dstType = GL_UNSIGNED_INT)).
  { subst dstType. unfold requested_type.
    set (w := primitiveRestartWorkaround _ _ _ _ _).
    assert (Hw : w = true -> srcType = GL_UNSIGNED_SHORT).
    { subst w. intros H. apply primitiveRestartWorkaround_true in H. tauto. }
    destruct (destinationType_cases srcType w) as [(-> & Hc)|(-> & Hne & _)].
    - destruct Hc as [Hc|Hc]; [left; exact Hc|]. right. right. auto.
    - destruct Hty as [Hb| [Hs| Hi]]; [right; left; auto|left; auto|tauto]. }
  split; [exact Hpair|].
  assert (Hall : bytes (GetTypeInfo srcType) <= bytes (GetTypeInfo dstType)
                 /\ ConvertIndices_branch srcType dstType
                    <> BranchUnreachable
                 /\ converter_contract srcType dstType).
  { destruct Hpair as [<- | [[-> ->] | [-> ->]]].
    - split; [lia|].
      unfold converter_contract, ConvertIndices_branch.
      rewrite Z.eqb_refl. split; [discriminate|exact I].
    - split; [vm_compute; discriminate|].
      split; [discriminate|reflexivity].
    - split; [vm_compute; discriminate|].
      split; [discriminate|reflexivity]. }
  destruct Hall as (Hb & Hu & Hc).
  repeat (split; [assumption|]).
  exact (prepare_events srcType count glBuffer indices fixed s).
Qed.

End Buffers.

Lemma prepare_direct_binding_witness :
  let s :=
    TestBackend.initial_state
      (TestBackend.world_of (store_array GLushort [5; 6; 7]) true None)
      RENDERER_D3D11 7 3 in
  let r := prepareIndexData GL_UNSIGNED_SHORT 2 (Some 1) 2 false s in
  fst r = NoError /\ trace (snd r) = [] /\
  storage (translated (snd r)) = Some 1 /\
  startIndex (translated (snd r)) = 1 /\
  startOffset (translated (snd r)) = 2.
Proof.
  intros s r.
  destruct (prepare_direct_binding GL_UNSIGNED_SHORT 2 1 2 false s)
    as (Hok & _ & _ & Htr & Hst & _ & _ & Hidx & Hoff & _).
  - reflexivity.
  - reflexivity.
  - reflexivity.
  - repeat split; assumption.
Defined.

(** ** Scenario B: a 16-bit draw under the restart workaround *)

Section ScenarioB.

Context {World : Type} {backend : Backend World}.

Implicit Types (s : State World).

Lemma ConvertIndexArray_plain (InputT DestT : CType) (input : list byte)
    (sourceType destinationType : GLenum) (count : nat) :
  ConvertIndexArray InputT DestT input sourceType destinationType
    (Z.of_nat count) false
  = store_array DestT
      (map (static_cast DestT) (load_array InputT input count)).
Proof.
  unfold ConvertIndexArray, load_array.
  rewrite Nat2Z.id, map_map. reflexivity.
Qed.

(** C1, as the code has it.  Scenario B: a call by pointer with 16-bit
    source type, count 3 and elements 5, 65535, 7, under the restart
    workaround (fixed restart off, D3D11, a restart index in the scanned
    range).  The destination type is 32-bit, and a successful call reserves
    12 bytes in the streaming buffer and writes there the 32-bit elements
    5, 65535, 7: the converter gets the fixed-restart flag, which is off
    whenever the workaround is active, so 65535 keeps its value and is not
    turned into the 32-bit sentinel. *)
Theorem prepare_scenario_B indices s :
  mRendererClass (manager s) = RENDERER_D3D11 ->
  hasPrimitiveRestartIndex (indexRange (translated s)) 3 GL_UNSIGNED_SHORT
  = true ->
  load_array GLushort (client_memory indices (world s)) 3 = [5; 65535; 7] ->
  let r := prepareIndexData GL_UNSIGNED_SHORT 3 None indices false s in
  let written := store_array GLuint [5; 65535; 7] in
  indexType (translated (snd r)) = GL_UNSIGNED_INT /\
  load_array GLuint written 3 = [5; 65535; 7] /\
  (fst r = NoError ->
   exists pre ib,
     creation_events GL_UNSIGNED_INT pre /\
     trace (snd r)
     = trace s ++ pre
       ++ [EvReserveBufferSpace ib 12 GL_UNSIGNED_INT;
           EvMapBuffer ib 12;
           EvConvertIndices ib GL_UNSIGNED_SHORT GL_UNSIGNED_INT 3 false
             written;
           EvUnmapBuffer ib]).
Proof.
  intros Hd3d Hrestart Hdata r written.
  assert (Hreq : requested_type s GL_UNSIGNED_SHORT 3 false
                 = GL_UNSIGNED_INT).
  { unfold requested_type, primitiveRestartWorkaround.
    rewrite Hd3d, Hrestart. reflexivity. }
  split.
  { subst r.
    destruct (prepare_request GL_UNSIGNED_SHORT 3 None indices false s)
      as (_ & -> & _).
    exact Hreq. }
  split; [reflexivity|].
  intros Hno. subst r. rewrite prepare_case1, Hreq in *.
  match type of Hno with
  | fst (streamIndexData ?d ?c ?st ?dt ?f ?s0) = _ =>
      destruct (streamIndexData_spec d c st dt f s0)
        as (_ & pre & ib & n & Hpre & Htr & Hok)
  end.
  rewrite Hno in Hok. destruct (Hok eq_refl) as (_ & -> & _).
  exists pre, ib. split; [assumption|]. rewrite Htr.
  cbn [trace request_state]. f_equal. f_equal.
  unfold stream_events.
  change (to_GLsizei (to_uint 3)) with (Z.of_nat 3).
  change (ConvertIndices GL_UNSIGNED_SHORT GL_UNSIGNED_INT
            (client_memory indices (world s)) (Z.of_nat 3) false)
    with (ConvertIndexArray GLushort GLuint (client_memory indices (world s))
            GL_UNSIGNED_SHORT GL_UNSIGNED_INT (Z.of_nat 3) false).
  rewrite ConvertIndexArray_plain, Hdata. reflexivity.
Qed.

End ScenarioB.

(** ** Concrete runs *)

(** C1, the claim as written fails: in Scenario B the call succeeds with a
    32-bit destination, and the elements written to the streaming buffer are
    5, 65535, 7, not 5, 4294967295, 7. *)
Lemma scenario_B_sentinel_not_remapped :
  let s :=
    TestBackend.initial_state
      (TestBackend.world_of (store_array GLushort [5; 65535; 7]) false None)
      RENDERER_D3D11 65535 2 in
  let r := prepareIndexData GL_UNSIGNED_SHORT 3 None 0 false s in
  let written :=
    load_array GLuint (TestBackend.tw_stored (world (snd r))) 3 in
  fst r = NoError /\
  written = [5; 65535; 7] /\
  ~ (indexType (translated (snd r)) = GL_UNSIGNED_INT /\
     written = [5; 4294967295; 7]).
Proof.
  vm_compute. split; [reflexivity|]. split; [reflexivity|].
  intros [_ H]. discriminate H.
Qed.

Lemma prepare_scenario_B_witness :
  let s :=
    TestBackend.initial_state
      (TestBackend.world_of (store_array GLushort [5; 65535; 7]) false None)
      RENDERER_D3D11 65535 2 in
  indexType
    (translated (snd (prepareIndexData GL_UNSIGNED_SHORT 3 None 0 false s)))
  = GL_UNSIGNED_INT.
Proof.
  intros s.
  destruct (prepare_scenario_B 0 s) as (Hty & _).
  - reflexivity.
  - reflexivity.
  - reflexivity.
  - exact Hty.
Defined.

(** C4, the claim as written fails: a streamed draw of 3 16-bit indices from
    a buffer promotes a usage of 6, the bytes referenced, and never one of 3,
    the elements referenced. *)
Lemma streaming_fallback_promotes_bytes_not_count :
  let s :=
    TestBackend.initial_state
      (TestBackend.world_of (store_array GLushort [5; 6; 7]) false None)
      RENDERER_D3D11 7 3 in
  let r := prepareIndexData GL_UNSIGNED_SHORT 3 (Some 1) 0 true s in
  fst r = NoError /\
  last (trace (snd r)) (EvGetData 0) = EvPromoteStaticUsage 1 6 /\
  ~ In (EvPromoteStaticUsage 1 3) (trace (snd r)).
Proof.
  vm_compute. split; [reflexivity|]. split; [reflexivity|].
  intros H. repeat (destruct H as [H|H]; [discriminate H|]). exact H.
Qed.

Lemma prepare_streaming_fallback_promotes_data_size_witness :
  let s :=
    TestBackend.initial_state
      (TestBackend.world_of (store_array GLushort [5; 6; 7]) false None)
      RENDERER_D3D11 7 3 in
  let r := prepareIndexData GL_UNSIGNED_SHORT 3 (Some 1) 0 true s in
  exists evs ib data,
    Forall not_promotion evs /\
    trace (snd r)
    = trace s ++ evs
      ++ stream_events ib data 3 GL_UNSIGNED_SHORT GL_UNSIGNED_SHORT true
      ++ [EvPromoteStaticUsage 1 6].
Proof.
  intros s r.
  destruct (prepare_streaming_fallback_promotes_data_size GL_UNSIGNED_SHORT 3
              1 0 true s) as (Hok & _).
  - reflexivity.
  - left. reflexivity.
  - exact (Hok eq_refl).
Defined.


Lemma prepare_invalidates_stale_static_buffer_witness :
  let s :=
    TestBackend.initial_state
      (TestBackend.world_of (store_array GLushort [5; 65535; 7]) true
         (Some (6, GL_UNSIGNED_SHORT)))
      RENDERER_D3D11 65535 2 in
  let r := prepareIndexData GL_UNSIGNED_SHORT 3 (Some 1) 0 false s in
  exists evs,
    trace (snd r)
    = trace s ++ EvInvalidateStaticData 1 :: EvGetData 1 :: evs.
Proof.
  intros s r.
  destruct (prepare_invalidates_stale_static_buffer GL_UNSIGNED_SHORT 3 1 0
              false TestBackend.static_ref s) as (_ & Htr & _).
  - reflexivity.
  - reflexivity.
  - vm_compute. discriminate.
  - vm_compute. discriminate.
  - exact Htr.
Defined.

Lemma prepare_converter_contract_witness :
  let s :=
    TestBackend.initial_state
      (TestBackend.world_of (store_array GLubyte [0; 1; 2; 255]) false None)
      RENDERER_D3D11 255 3 in
  converter_contract GL_UNSIGNED_BYTE
    (requested_type s GL_UNSIGNED_BYTE 4 false).
Proof.
  intros s.
  assert (Hty : IsIndexType GL_UNSIGNED_BYTE) by (left; reflexivity).
  destruct (prepare_converter_contract GL_UNSIGNED_BYTE 4 None 0 false s Hty)
    as (_ & _ & _ & Hc & _).
  exact Hc.
Defined.

(** A failing call changes the descriptor: a draw by pointer of 2^30 32-bit
    indices exceeds the capacity of a streamed write and returns out of
    memory, and the descriptor holds its destination type and source data. *)
Example failing_call_overwrites_descriptor :
  let s :=
    TestBackend.initial_state (TestBackend.world_of [] false None)
      RENDERER_D3D11 0 0 in
  let r := prepareIndexData GL_UNSIGNED_INT (2 ^ 30) None 64 false s in
  fst r = OutOfMemory /\
  indexType (translated s) = 0 /\
  indexType (translated (snd r)) = GL_UNSIGNED_INT /\
  srcIndexData (translated (snd r))
  = mk_SourceIndexData None 64 GL_UNSIGNED_INT (2 ^ 30).
Proof. vm_compute. repeat split. Qed.

(** Scenario A: an 8-bit draw of 0, 1, 2, 255 with primitive restart off is
    widened to 16 bits with every value kept. *)
Example scenario_A_plain_widening :
  let s :=
    TestBackend.initial_state
      (TestBackend.world_of (store_array GLubyte [0; 1; 2; 255]) false None)
      RENDERER_D3D11 255 4 in
  let r := prepareIndexData GL_UNSIGNED_BYTE 4 None 0 false s in
  fst r = NoError /\
  indexType (translated (snd r)) = GL_UNSIGNED_SHORT /\
  load_array GLushort (TestBackend.tw_stored (world (snd r))) 4
  = [0; 1; 2; 255].
Proof. vm_compute. repeat split. Qed.

(** * Further properties *)

(** ** The converter: what it reads and what it writes *)

Lemma load_firstn (t : CType) (mem : list byte) (n i : nat) :
  (S i * sizeof t <= n)%nat -> load t (firstn n mem) i = load t mem i.
Proof.
  intros Hn. unfold load.
  rewrite skipn_firstn_comm, firstn_firstn, Nat.min_l; [reflexivity|].
  cbn [Nat.mul] in Hn. lia.
Qed.

Lemma load_agree (t : CType) (mem1 mem2 : list byte) (n i : nat) :
  firstn n mem1 = firstn n mem2 ->
  (S i * sizeof t <= n)%nat -> load t mem1 i = load t mem2 i.
Proof.
  intros Heq Hn.
  rewrite <- (load_firstn t mem1 n i Hn), <- (load_firstn t mem2 n i Hn).
  now rewrite Heq.
Qed.

Lemma to_uint_small (v : Z) : 0 <= v <= UINT_MAX -> to_uint v = v.
Proof.
  intros Hv. unfold to_uint. apply Z.mod_small. unfold UINT_MAX in Hv. lia.
Qed.

Lemma to_uint_of_GLsizei (v k : Z) :
  to_uint (to_GLsizei v * k) = to_uint (v * k).
Proof.
  unfold to_uint, to_GLsizei.
  rewrite <- (Zmult_mod_idemp_l ((v + 2 ^ 31) mod 2 ^ 32 - 2 ^ 31)).
  rewrite <- (Zmult_mod_idemp_l v). f_equal. f_equal.
  rewrite <- Zminus_mod_idemp_l, Z.mod_mod by lia.
  rewrite Zminus_mod_idemp_l. f_equal. lia.
Qed.

Lemma IndexCType_info type T :
  IndexCType type T ->
  IsIndexType type /\ bytes (GetTypeInfo type) = Z.of_nat (sizeof T).
Proof. intros []; unfold IsIndexType; auto. Qed.

Lemma ConvertIndices_same_type type input count flag :
  ConvertIndices type type input count flag
  = firstn (Z.to_nat (to_uint (count * bytes (GetTypeInfo type)))) input.
Proof.
  unfold ConvertIndices, ConvertIndices_branch. now rewrite Z.eqb_refl.
Qed.

(** X1. Conversion between equal types is a copy.  For an index type, a count
    that is not negative and a byte size that fits [unsigned int], the bytes
    written are the first count times element size bytes of the input,
    whatever the remap flag, so every element below the count keeps its
    value, a sentinel included. *)
Theorem ConvertIndices_same_type_copies
    (type : GLenum) (T : CType) (input : list byte) (count : Z)
    (flag : bool) (i : nat) :
  IndexCType type T ->
  0 <= count ->
  count * bytes (GetTypeInfo type) <= UINT_MAX ->
  (i < Z.to_nat count)%nat ->
  ConvertIndices type type input count flag
  = firstn (Z.to_nat count * sizeof T) input /\
  load T (ConvertIndices type type input count flag) i = load T input i.
Proof.
  intros Hty Hcount Hfit Hi.
  destruct (IndexCType_info type T Hty) as [_ Hbytes].
  assert (Hcopy : ConvertIndices type type input count flag
                  = firstn (Z.to_nat count * sizeof T) input).
  { rewrite ConvertIndices_same_type, to_uint_small
      by (rewrite Hbytes in *; lia).
    rewrite Hbytes. f_equal. lia. }
  split; [exact Hcopy|]. rewrite Hcopy. apply load_firstn.
  apply Nat.mul_le_mono_r. lia.
Qed.

Lemma ConvertIndices_same_type_copies_witness :
  let input := store_array GLushort [5; 65535; 7] in
  load GLushort
    (ConvertIndices GL_UNSIGNED_SHORT GL_UNSIGNED_SHORT input 3 true) 1
  = 65535.
Proof.
  intros input.
  destruct (ConvertIndices_same_type_copies GL_UNSIGNED_SHORT GLushort input 3
              true 1 ctype_short) as [_ Hload].
  - lia.
  - vm_compute. discriminate.
  - vm_compute. lia.
  - rewrite Hload. reflexivity.
Defined.

(** X2. Restart positions under a widening conversion.  With the remap flag
    set, an element of the output is the sentinel of the destination width
    exactly where the input holds the sentinel of the source width.  With the
    flag clear no element of the output is the destination sentinel: every
    value stays within the source width. *)
Theorem ConvertIndices_restart_positions
    (srcType dstType : GLenum) (InputT DestT : CType)
    (input : list byte) (count : Z) (flag : bool) (i : nat) :
  Widening srcType InputT dstType DestT ->
  (i < Z.to_nat count)%nat ->
  let out := load DestT (ConvertIndices srcType dstType input count flag) i in
  (flag = true ->
   (out = max_index DestT <-> load InputT input i = max_index InputT)) /\
  (flag = false -> out <= max_index InputT /\ out < max_index DestT).
Proof.
  intros Hw Hi out.
  assert (Hout : ConvertIndices srcType dstType input count flag
                 = ConvertIndexArray InputT DestT input srcType dstType count
                     flag)
    by (destruct Hw; reflexivity).
  assert (Hbits : bitsof InputT <= bitsof DestT)
    by (destruct Hw; vm_compute; discriminate).
  assert (Hlt : max_index InputT < max_index DestT)
    by (destruct Hw; vm_compute; reflexivity).
  assert (Hsrc : static_cast InputT (GetPrimitiveRestartIndex srcType)
                 = max_index InputT) by (destruct Hw; reflexivity).
  assert (Hdst : static_cast DestT
                   (static_cast DestT (GetPrimitiveRestartIndex dstType))
                 = max_index DestT) by (destruct Hw; reflexivity).
  pose proof (ConvertIndexArray_load InputT DestT input srcType dstType count
                flag i Hi Hbits) as Hload.
  rewrite Hsrc, Hdst, <- Hout in Hload. fold out in Hload.
  pose proof (load_range InputT input i) as Hr.
  split.
  - intros ->. cbn [andb] in Hload.
    destruct (load InputT input i =? max_index InputT) eqn:E.
    + apply Z.eqb_eq in E. tauto.
    + apply Z.eqb_neq in E. rewrite Hload. split; [lia|tauto].
  - intros ->. cbn [andb] in Hload. rewrite Hload. lia.
Qed.

Lemma ConvertIndices_restart_positions_witness :
  let input := store_array GLushort [5; 65535; 7] in
  load GLuint
    (ConvertIndices GL_UNSIGNED_SHORT GL_UNSIGNED_INT input 3 false) 1
  < max_index GLuint.
Proof.
  intros input.
  destruct (ConvertIndices_restart_positions GL_UNSIGNED_SHORT GL_UNSIGNED_INT
              GLushort GLuint input 3 false 1 widen_short_int)
    as [_ Hplain].
  - vm_compute. lia.
  - exact (proj2 (Hplain eq_refl)).
Defined.

Lemma converter_contract_cases srcType dstType T :
  converter_contract srcType dstType ->
  IndexCType srcType T ->
  srcType = dstType \/ exists D, Widening srcType T dstType D.
Proof.
  unfold converter_contract, ConvertIndices_branch.
  destruct (srcType =? dstType) eqn:E.
  { apply Z.eqb_eq in E. auto. }
  intros Hc Hty. right.
  destruct Hty; cbn in Hc; try contradiction; apply Z.eqb_eq in Hc;
    subst dstType; eexists; constructor.
Qed.

Lemma ConvertIndexArray_ext (InputT DestT : CType) (input1 input2 : list byte)
    (sourceType destinationType : GLenum) (count : Z) (flag : bool) :
  (forall i, (i < Z.to_nat count)%nat ->
             load InputT input1 i = load InputT input2 i) ->
  ConvertIndexArray InputT DestT input1 sourceType destinationType count flag
  = ConvertIndexArray InputT DestT input2 sourceType destinationType count
      flag.
Proof.
  intros Hext. unfold ConvertIndexArray.
  destruct flag; f_equal; apply map_ext_in; intros i Hi;
    apply in_seq in Hi; rewrite Hext by lia; reflexivity.
Qed.

(** X3. The converter reads nothing past the draw's range.  On a pair of
    types within its contract, with a count that is not negative and a source
    byte size that fits [unsigned int], two inputs that agree on their first
    count times source element size bytes give the same output, whatever
    follows in either. *)
Theorem ConvertIndices_reads_only_the_range
    (srcType dstType : GLenum) (T : CType) (input1 input2 : list byte)
    (count : Z) (flag : bool) :
  converter_contract srcType dstType ->
  IndexCType srcType T ->
  0 <= count ->
  count * bytes (GetTypeInfo srcType) <= UINT_MAX ->
  firstn (Z.to_nat count * sizeof T) input1
  = firstn (Z.to_nat count * sizeof T) input2 ->
  ConvertIndices srcType dstType input1 count flag
  = ConvertIndices srcType dstType input2 count flag.
Proof.
  intros Hc Hty Hcount Hfit Hagree.
  destruct (IndexCType_info srcType T Hty) as [_ Hbytes].
  destruct (converter_contract_cases srcType dstType T Hc Hty)
    as [<- | [D Hw]].
  - rewrite !ConvertIndices_same_type,
      to_uint_small by (rewrite Hbytes in *; lia).
    rewrite Hbytes.
    replace (Z.to_nat (count * Z.of_nat (sizeof T)))
      with (Z.to_nat count * sizeof T)%nat by lia.
    exact Hagree.
  - assert (Hout : forall input,
               ConvertIndices srcType dstType input count flag
               = ConvertIndexArray T D input srcType dstType count flag)
      by (intros input; destruct Hw; reflexivity).
    rewrite !Hout. apply ConvertIndexArray_ext. intros i Hi.
    apply (load_agree T input1 input2 (Z.to_nat count * sizeof T) i Hagree).
    apply Nat.mul_le_mono_r. lia.
Qed.

Lemma ConvertIndices_reads_only_the_range_witness :
  ConvertIndices GL_UNSIGNED_BYTE GL_UNSIGNED_SHORT
    (store_array GLubyte [1; 2; 3; 4]) 2 true
  = ConvertIndices GL_UNSIGNED_BYTE GL_UNSIGNED_SHORT
      (store_array GLubyte [1; 2; 255; 0]) 2 true.
Proof.
  apply (ConvertIndices_reads_only_the_range GL_UNSIGNED_BYTE
           GL_UNSIGNED_SHORT GLubyte).
  - reflexivity.
  - constructor.
  - lia.
  - vm_compute. discriminate.
  - reflexivity.
Defined.

Lemma length_ConvertIndices_contract srcType dstType data count flag :
  IsIndexType dstType ->
  converter_contract srcType dstType ->
  0 <= count <= Z.shiftr UINT_MAX (bytesShift (GetTypeInfo dstType)) ->
  let written :=
    ConvertIndices srcType dstType data (to_GLsizei count) flag in
  Z.of_nat (length written) <= count * bytes (GetTypeInfo dstType) /\
  (count * bytes (GetTypeInfo srcType) <= Z.of_nat (length data) ->
   Z.of_nat (length written) = count * bytes (GetTypeInfo dstType)).
Proof.
  intros Hdst Hc Hcount written. subst written.
  unfold converter_contract in Hc. unfold ConvertIndices.
  destruct (ConvertIndices_branch srcType dstType) eqn:Hb;
    try contradiction.
  - (* memcpy *)
    assert (srcType = dstType).
    { unfold ConvertIndices_branch in Hb.
      destruct (srcType =? dstType) eqn:E; [now apply Z.eqb_eq in E|].
      destruct (srcType =? GL_UNSIGNED_BYTE); [discriminate|].
      destruct (srcType =? GL_UNSIGNED_SHORT); discriminate. }
    subst srcType. rewrite to_uint_of_GLsizei.
    assert (Hfit : 0 <= count * bytes (GetTypeInfo dstType) <= UINT_MAX).
    { destruct (index_type_info dstType Hdst) as [Hi | [Hi | Hi]];
        rewrite Hi in *; cbn [bytes bytesShift] in *.
      - change (Z.shiftr UINT_MAX 0) with UINT_MAX in Hcount. lia.
      - change (Z.shiftr UINT_MAX 1) with 2147483647 in Hcount.
        change UINT_MAX with 4294967295. lia.
      - change (Z.shiftr UINT_MAX 2) with 1073741823 in Hcount.
        change UINT_MAX with 4294967295. lia. }
    rewrite to_uint_small by exact Hfit. rewrite length_firstn. split; lia.
  - (* 8 to 16 bits *)
    subst assertion. unfold ConvertIndices_branch in Hb.
    destruct (srcType =? dstType); [discriminate|].
    destruct (srcType =? GL_UNSIGNED_BYTE) eqn:Es.
    2:{ destruct (srcType =? GL_UNSIGNED_SHORT); discriminate. }
    injection Hb as Hb. apply Z.eqb_eq in Hb, Es. subst srcType dstType.
    cbn [GetTypeInfo bytes bytesShift] in *. cbn in Hcount.
    rewrite ConvertIndexArray_length, to_GLsizei_small by lia.
    cbn [sizeof]. cbn. split; lia.
  - (* 16 to 32 bits *)
    subst assertion. unfold ConvertIndices_branch in Hb.
    destruct (srcType =? dstType); [discriminate|].
    destruct (srcType =? GL_UNSIGNED_BYTE); [discriminate|].
    destruct (srcType =? GL_UNSIGNED_SHORT) eqn:Es; [|discriminate].
    injection Hb as Hb. apply Z.eqb_eq in Hb, Es. subst srcType dstType.
    cbn [GetTypeInfo bytes bytesShift] in *. cbn in Hcount.
    rewrite ConvertIndexArray_length, to_GLsizei_small by lia.
    cbn [sizeof]. cbn. split; lia.
Qed.

(** ** Streamed writes: the protocol on the index buffer *)

Section StreamedWrites.

Context {World : Type} {backend : Backend World}.

Implicit Types (s : State World) (data : list byte).

(** X4. A streamed write stays within its mapping.  For a destination index
    type, a pair of types within the converter's contract and a count that
    passes the capacity check, the calls made are a prefix, of at least one
    and at most four calls, of: reserve and map count times the destination
    element size bytes, convert, unmap; a call that returns no error has made
    all four and returns [NoError]; and the conversion writes at most the
    bytes that were mapped, exactly that many when the input holds count
    source elements. *)
Theorem StreamInIndexBuffer_writes_within_mapping
    buffer data count srcType dstType flag s :
  IsIndexType dstType ->
  converter_contract srcType dstType ->
  0 <= count <= Z.shiftr UINT_MAX (bytesShift (GetTypeInfo dstType)) ->
  let size := count * bytes (GetTypeInfo dstType) in
  let written :=
    ConvertIndices srcType dstType data (to_GLsizei count) flag in
  let r := StreamInIndexBuffer buffer data count srcType dstType flag s in
  (exists n,
     (1 <= n <= 4)%nat /\
     trace (snd r)
     = trace s
       ++ firstn n
            [EvReserveBufferSpace buffer size dstType;
             EvMapBuffer buffer size;
             EvConvertIndices buffer srcType dstType (to_GLsizei count) flag
               written;
             EvUnmapBuffer buffer] /\
     (isError (fst (fst r)) = false ->
      fst (fst r) = NoError /\ n = 4%nat)) /\
  Z.of_nat (length written) <= size /\
  (count * bytes (GetTypeInfo srcType) <= Z.of_nat (length data) ->
   Z.of_nat (length written) = size).
Proof.
  intros Hdst Hc Hcount size written r.
  split; [|exact (length_ConvertIndices_contract srcType dstType data count
                    flag Hdst Hc Hcount)].
  destruct (StreamInIndexBuffer_spec buffer data count srcType dstType flag s
              (proj2 Hcount)) as (_ & _ & n & Hn & Htr & Hok).
  fold r in Htr, Hok.
  assert (Hsome : exists m, (1 <= m <= 4)%nat /\
                    trace (snd r)
                    = trace s
                      ++ firstn m
                           (stream_events buffer data count srcType dstType
                              flag) /\
                    (isError (fst (fst r)) = false ->
                     fst (fst r) = NoError /\ m = 4%nat)).
  { destruct (Nat.le_gt_cases n 4) as [Hle|Hgt].
    - exists n. auto.
    - exists 4%nat. split; [lia|]. split.
      + rewrite Htr. f_equal. unfold stream_events.
        rewrite firstn_all2 by (cbn [length]; lia). reflexivity.
      + intros He. destruct (Hok He) as [Hno _]. auto. }
  destruct Hsome as (m & Hm & Htrm & Hokm).
  exists m. split; [exact Hm|]. split; [|exact Hokm].
  rewrite Htrm. f_equal. f_equal.
  unfold stream_events.
  assert (Hsz : to_uint (Z.shiftl count (bytesShift (GetTypeInfo dstType)))
                = size).
  { destruct (shift_is_scaling dstType count Hdst) as [-> _].
    apply to_uint_small. fold size.
    pose proof (capacity_check dstType count Hdst) as Hiff. fold size in Hiff.
    assert (0 <= bytes (GetTypeInfo dstType)).
    { destruct (index_type_info dstType Hdst) as [-> | [-> | ->]];
        cbn [bytes]; lia. }
    split; [subst size; nia|].
    destruct (Z_gt_le_dec size UINT_MAX) as [Hg|Hl]; [|exact Hl].
    apply Hiff in Hg. lia. }
  rewrite Hsz. reflexivity.
Qed.

(** X5. Error propagation of a streamed write.  Once the capacity check has
    passed, the call ends at the first collaborator that fails and returns
    that collaborator's error: a failed reservation is followed by no
    mapping, a failed mapping by no conversion and no unmapping, and a buffer
    that was mapped is always unmapped, after exactly one conversion.  The
    offset given back is the one the mapping produced. *)
Theorem StreamInIndexBuffer_error_propagation
    buffer data count srcType dstType flag s :
  count <= Z.shiftr UINT_MAX (bytesShift (GetTypeInfo dstType)) ->
  let size := to_uint (Z.shiftl count (bytesShift (GetTypeInfo dstType))) in
  let written :=
    ConvertIndices srcType dstType data (to_GLsizei count) flag in
  let reserved := reserveBufferSpace buffer size dstType (world s) in
  let mapped := mapBuffer buffer size (snd reserved) in
  let unmapped :=
    unmapBuffer buffer (mapped_store buffer written (snd mapped)) in
  let r := StreamInIndexBuffer buffer data count srcType dstType flag s in
  let evs := stream_events buffer data count srcType dstType flag in
  (isError (fst reserved) = true ->
   fst (fst r) = fst reserved /\ world (snd r) = snd reserved /\
   trace (snd r) = trace s ++ firstn 1 evs) /\
  (isError (fst reserved) = false ->
   isError (fst (fst mapped)) = true ->
   fst (fst r) = fst (fst mapped) /\ world (snd r) = snd mapped /\
   trace (snd r) = trace s ++ firstn 2 evs) /\
  (isError (fst reserved) = false ->
   isError (fst (fst mapped)) = false ->
   (if isError (fst unmapped) then fst (fst r) = fst unmapped
    else fst (fst r) = NoError) /\
   snd (fst r) = snd (fst mapped) /\
   world (snd r) = snd unmapped /\
   trace (snd r) = trace s ++ evs).
Proof.
  intros Hc size written reserved mapped unmapped r evs.
  subst r. unfold StreamInIndexBuffer.
  destruct (count >? _) eqn:E.
  { rewrite Z.gtb_ltb, Z.ltb_lt in E. lia. }
  run. fold size. fold reserved.
  destruct (isError (fst reserved)) eqn:E1; run.
  { split; [auto|]. split; discriminate. }
  fold mapped. destruct (fst mapped) as [e2 off] eqn:E2. cbn [fst snd].
  destruct (isError e2) eqn:He2; run.
  { split; [discriminate|]. split; [|discriminate].
    intros _ _. rewrite <- app_assoc. auto. }
  fold written. fold unmapped.
  split; [discriminate|]. split; [discriminate|]. intros _ _.
  destruct (isError (fst unmapped)) eqn:E3; run;
    rewrite <- !app_assoc; auto.
Qed.

End StreamedWrites.

Lemma StreamInIndexBuffer_writes_within_mapping_witness :
  let s :=
    TestBackend.initial_state (TestBackend.world_of [] false None)
      RENDERER_D3D11 0 0 in
  let data := store_array GLubyte [0; 1; 2; 255] in
  Z.of_nat
    (length (ConvertIndices GL_UNSIGNED_BYTE GL_UNSIGNED_SHORT data
               (to_GLsizei 4) true))
  = 8.
Proof.
  intros s data.
  assert (Hty : IsIndexType GL_UNSIGNED_SHORT) by (right; left; reflexivity).
  assert (Hc : converter_contract GL_UNSIGNED_BYTE GL_UNSIGNED_SHORT)
    by reflexivity.
  assert (Hcount : 0 <= 4
                   <= Z.shiftr UINT_MAX
                        (bytesShift (GetTypeInfo GL_UNSIGNED_SHORT)))
    by (vm_compute; split; discriminate).
  destruct (StreamInIndexBuffer_writes_within_mapping
              TestBackend.streaming_ref data 4 GL_UNSIGNED_BYTE
              GL_UNSIGNED_SHORT true s Hty Hc Hcount) as (_ & _ & Hexact).
  apply Hexact. vm_compute. discriminate.
Defined.

Lemma StreamInIndexBuffer_error_propagation_witness :
  let s :=
    TestBackend.initial_state
      (TestBackend.world_of [] false (Some (4, GL_UNSIGNED_SHORT)))
      RENDERER_D3D11 0 0 in
  let r :=
    StreamInIndexBuffer TestBackend.static_ref
      (store_array GLushort [1; 2; 3]) 3 GL_UNSIGNED_SHORT GL_UNSIGNED_SHORT
      false s in
  fst (fst r) = InternalError 1 /\
  trace (snd r)
  = [EvReserveBufferSpace TestBackend.static_ref 6 GL_UNSIGNED_SHORT].
Proof.
  intros s r.
  assert (Hc : 3 <= Z.shiftr UINT_MAX
                      (bytesShift (GetTypeInfo GL_UNSIGNED_SHORT)))
    by (vm_compute; discriminate).
  destruct (StreamInIndexBuffer_error_propagation TestBackend.static_ref
              (store_array GLushort [1; 2; 3]) 3 GL_UNSIGNED_SHORT
              GL_UNSIGNED_SHORT false s Hc) as (Hfail & _).
  destruct (Hfail eq_refl) as (He & _ & Htr).
  split; [exact He|exact Htr].
Defined.

(** ** The streaming buffers of the manager *)

Section StreamingBuffers.

Context {World : Type} {backend : Backend World}.

Implicit Types (s : State World) (data : list byte).

Lemma keeps_streaming_buffers_refl m : keeps_streaming_buffers m m.
Proof. unfold keeps_streaming_buffers. auto. Qed.

Lemma keeps_streaming_buffers_trans m1 m2 m3 :
  keeps_streaming_buffers m1 m2 -> keeps_streaming_buffers m2 m3 ->
  keeps_streaming_buffers m1 m3.
Proof.
  unfold keeps_streaming_buffers.
  intros (Hr1 & Hs1 & Hi1) (Hr2 & Hs2 & Hi2).
  split; [congruence|]. split; auto.
Qed.

Lemma getStreamingIndexBuffer_manager ty s :
  let r := getStreamingIndexBuffer ty s in
  keeps_streaming_buffers (manager s) (manager (snd r)) /\
  (isError (fst (fst r)) = true ->
   snd (fst r) = None /\ manager (snd r) = manager s) /\
  ((ty =? GL_UNSIGNED_INT) = true ->
   mStreamingBufferShort (manager (snd r))
   = mStreamingBufferShort (manager s)) /\
  ((ty =? GL_UNSIGNED_INT) = false ->
   mStreamingBufferInt (manager (snd r)) = mStreamingBufferInt (manager s)).
Proof.
  unfold getStreamingIndexBuffer, keeps_streaming_buffers. run.
  destruct (ty =? GL_UNSIGNED_INT) eqn:Hty.
  - destruct (mStreamingBufferInt (manager s)) as [b|] eqn:Hb.
    + cbn. repeat split; intros; auto; try discriminate; try congruence.
    + run. branch; cbn; repeat split; intros; auto; try discriminate;
        try congruence.
  - destruct (mStreamingBufferShort (manager s)) as [b|] eqn:Hb.
    + cbn. repeat split; intros; auto; try discriminate; try congruence.
    + run. branch; cbn; repeat split; intros; auto; try discriminate;
        try congruence.
Qed.

(** X6. A streaming buffer is created once.  After a call of
    [getStreamingIndexBuffer] that succeeded, a second call for the same
    type returns the same buffer without an error and changes nothing: no
    buffer is created and nothing is reserved again. *)
Theorem getStreamingIndexBuffer_creates_once ty s :
  let first := getStreamingIndexBuffer ty s in
  isError (fst (fst first)) = false ->
  getStreamingIndexBuffer ty (snd first) = (fst first, snd first) /\
  exists ib, fst first = (NoError, Some ib).
Proof.
  unfold getStreamingIndexBuffer. run.
  destruct (ty =? GL_UNSIGNED_INT) eqn:Hty.
  - destruct (mStreamingBufferInt (manager s)) as [b|] eqn:Hb.
    + cbn. rewrite Hb. eauto.
    + run. branch; [intros H; cbn in H; congruence|]. intros _. cbn. eauto.
  - destruct (mStreamingBufferShort (manager s)) as [b|] eqn:Hb.
    + cbn. rewrite Hb. eauto.
    + run. branch; [intros H; cbn in H; congruence|]. intros _. cbn. eauto.
Qed.

(** X7. What [getStreamingIndexBuffer] does to the manager.  A buffer that
    exists is never replaced, and the renderer class is kept.  A call that
    fails hands out no buffer and leaves the manager as it was, so that the
    next call tries the creation again.  A call for the 32-bit type never
    touches the 16-bit member, and a call for any other type never touches
    the 32-bit member. *)
Theorem getStreamingIndexBuffer_members ty s :
  let r := getStreamingIndexBuffer ty s in
  keeps_streaming_buffers (manager s) (manager (snd r)) /\
  (isError (fst (fst r)) = true ->
   snd (fst r) = None /\ manager (snd r) = manager s) /\
  (ty = GL_UNSIGNED_INT ->
   mStreamingBufferShort (manager (snd r))
   = mStreamingBufferShort (manager s)) /\
  (ty <> GL_UNSIGNED_INT ->
   mStreamingBufferInt (manager (snd r)) = mStreamingBufferInt (manager s)).
Proof.
  cbv zeta.
  destruct (getStreamingIndexBuffer_manager ty s) as (Hk & He & Hi & Hs).
  repeat (split; [assumption|]). split.
  - intros ->. apply Hi. reflexivity.
  - intros Hne. apply Hs. now apply Z.eqb_neq.
Qed.

Lemma streamIndexData_manager data count srcType dstType flag s :
  keeps_streaming_buffers (manager s)
    (manager (snd (streamIndexData data count srcType dstType flag s))).
Proof.
  unfold streamIndexData, bind.
  pose proof (getStreamingIndexBuffer_manager dstType s) as (Hk & _).
  destruct (getStreamingIndexBuffer dstType s) as [[e ob] s1].
  cbn [fst snd] in Hk.
  destruct (isError e); [exact Hk|].
  destruct ob as [ib|]; [|exact Hk].
  pose proof (StreamInIndexBuffer_frame ib data count srcType dstType flag s1)
    as (Hm & _).
  destruct (StreamInIndexBuffer ib data count srcType dstType flag s1)
    as [[e2 off] s2].
  cbn [fst snd] in Hm.
  destruct (isError e2); run; cbn [ret snd]; rewrite Hm; exact Hk.
Qed.

Lemma prepare_stream_block_manager buffer offset count srcType dstType fixed
    s :
  keeps_streaming_buffers (manager s)
    (manager
       (snd (prepare_stream_block buffer offset count srcType dstType fixed
               s))).
Proof.
  unfold prepare_stream_block. run.
  destruct (fst (getData buffer (world s))) as [e bufferData].
  destruct (isError e); run; [apply keeps_streaming_buffers_refl|].
  match goal with
  | |- context [streamIndexData ?d ?c ?st ?dt ?f ?s0] =>
      pose proof (streamIndexData_manager d c st dt f s0) as Hk;
      destruct (streamIndexData d c st dt f s0) as [e1 s1]
  end.
  cbn [snd manager] in Hk. destruct (isError e1); run; exact Hk.
Qed.

(** X8. No call of [prepareIndexData] loses a streaming buffer.  Whatever the
    path and the outcome, the manager keeps its renderer class, and a
    streaming buffer that existed before the call is the same one after it:
    buffers are only ever added. *)
Theorem prepare_keeps_streaming_buffers
    srcType count glBuffer indices fixed s :
  keeps_streaming_buffers (manager s)
    (manager (snd (prepareIndexData srcType count glBuffer indices fixed s))).
Proof.
  destruct glBuffer as [buffer|].
  - destruct (binds_directly s buffer srcType
                (requested_type s srcType count fixed) (to_uint indices))
      eqn:Hd.
    + rewrite (prepare_case2a _ _ _ _ _ _ Hd).
      apply keeps_streaming_buffers_refl.
    + rewrite (prepare_case2b _ _ _ _ _ _ Hd).
      destruct (staticBufferInitialized _ _ && negb _).
      * match goal with
        | |- context [prepare_stream_block ?b ?o ?c ?st ?dt ?f ?s0] =>
            exact (prepare_stream_block_manager b o c st dt f s0)
        end.
      * destruct (if offsetAligned _ _ then _ else _) as [sb|].
        -- match goal with
           | |- context [prepare_static_block ?b ?x ?i ?o ?st ?dt ?f ?s0] =>
               destruct (prepare_static_block_spec b x i o st dt f s0)
                 as (_ & -> & _)
           end.
           apply keeps_streaming_buffers_refl.
        -- match goal with
           | |- context [prepare_stream_block ?b ?o ?c ?st ?dt ?f ?s0] =>
               exact (prepare_stream_block_manager b o c st dt f s0)
           end.
  - rewrite prepare_case1.
    match goal with
    | |- context [streamIndexData ?d ?c ?st ?dt ?f ?s0] =>
        exact (streamIndexData_manager d c st dt f s0)
    end.
Qed.

End StreamingBuffers.

Lemma getStreamingIndexBuffer_creates_once_witness :
  let s :=
    TestBackend.initial_state (TestBackend.world_of [] false None)
      RENDERER_D3D11 0 0 in
  let first := getStreamingIndexBuffer GL_UNSIGNED_SHORT s in
  getStreamingIndexBuffer GL_UNSIGNED_SHORT (snd first)
  = (fst first, snd first).
Proof.
  intros s first.
  exact (proj1 (getStreamingIndexBuffer_creates_once GL_UNSIGNED_SHORT s
                  eq_refl)).
Defined.

(** ** The descriptor a call leaves *)

Section Descriptor.

Context {World : Type} {backend : Backend World}.

Implicit Types (s : State World) (data : list byte).

Lemma streamIndexData_error data count srcType dstType flag s :
  let r := streamIndexData data count srcType dstType flag s in
  isError (fst r) = true -> translated (snd r) = translated s.
Proof.
  unfold streamIndexData, bind.
  pose proof (getStreamingIndexBuffer_spec dstType s) as (Ht1 & _).
  destruct (getStreamingIndexBuffer dstType s) as [[e ob] s1].
  cbn [fst snd] in Ht1.
  destruct (isError e) eqn:He; [intros _; exact Ht1|].
  destruct ob as [ib|]; [|intros _; exact Ht1].
  pose proof (StreamInIndexBuffer_frame ib data count srcType dstType flag s1)
    as (_ & Ht2 & _).
  destruct (StreamInIndexBuffer ib data count srcType dstType flag s1)
    as [[e2 off] s2].
  cbn [fst snd] in Ht2.
  destruct (isError e2) eqn:He2; run; cbn [ret fst snd].
  - intros _. congruence.
  - discriminate.
Qed.

Lemma prepare_stream_block_binding buffer offset count srcType dstType fixed
    s :
  let r :=
    prepare_stream_block buffer offset count srcType dstType fixed s in
  (isError (fst r) = true -> translated (snd r) = translated s) /\
  (isError (fst r) = false ->
   (exists ib, indexBuffer (translated (snd r)) = Some ib) /\
   startIndex (translated (snd r))
   = Z.shiftr (startOffset (translated (snd r)))
       (bytesShift (GetTypeInfo dstType))).
Proof.
  unfold prepare_stream_block. run.
  destruct (fst (getData buffer (world s))) as [e bufferData].
  destruct (isError e) eqn:He; run.
  { rewrite He. split; [reflexivity|discriminate]. }
  match goal with
  | |- context [streamIndexData ?d ?c ?st ?dt ?f ?s0] =>
      pose proof (streamIndexData_error d c st dt f s0) as Herr;
      pose proof (streamIndexData_spec d c st dt f s0)
        as (_ & pre & ib & n & _ & _ & Hok);
      destruct (streamIndexData d c st dt f s0) as [e1 s1]
  end.
  cbn [fst snd translated] in Herr, Hok.
  destruct (isError e1) eqn:He1; run.
  - rewrite He1. split; [intros _; exact (Herr eq_refl)|discriminate].
  - split; [discriminate|]. intros _.
    destruct (Hok eq_refl) as (_ & _ & _ & _ & Hib & _ & Hidx).
    split; [eauto|exact Hidx].
Qed.

Lemma prepare_static_block_error buffer sb initialized offset srcType dstType
    fixed s :
  let r :=
    prepare_static_block buffer sb initialized offset srcType dstType fixed s
  in
  isError (fst r) = true -> translated (snd r) = translated s.
Proof.
  unfold prepare_static_block. destruct initialized; run.
  { discriminate. }
  destruct (fst (getData buffer (world s))) as [e bufferData].
  cbn [snd]. destruct (isError e) eqn:He; run.
  { rewrite He. reflexivity. }
  match goal with
  | |- context [StreamInIndexBuffer ?b ?d ?c ?st ?dt ?f ?s0] =>
      pose proof (StreamInIndexBuffer_frame b d c st dt f s0)
        as (_ & Ht & _);
      destruct (StreamInIndexBuffer b d c st dt f s0) as [[e1 off] s1]
  end.
  cbn [fst snd translated] in Ht. cbn [fst snd].
  destruct (isError e1) eqn:He1; run.
  - intros _. exact Ht.
  - discriminate.
Qed.

(** The binding fields of two descriptors are the same. *)
Lemma request_state_binding s srcType count glBuffer indices fixed :
  let t := translated (request_state s srcType count glBuffer indices fixed) in
  startIndex t = startIndex (translated s) /\
  startOffset t = startOffset (translated s) /\
  indexBuffer t = indexBuffer (translated s) /\
  serial t = serial (translated s) /\
  storage t = None.
Proof. cbn. auto. Qed.

(** X9. A failed call leaves a stale binding.  When [prepareIndexData]
    returns an error, the descriptor's start index, start offset, index
    buffer and serial are those it had before the call, while its storage
    has been set to null: only the request fields are those of this call. *)
Theorem prepare_failure_keeps_old_binding
    srcType count glBuffer indices fixed s :
  let r := prepareIndexData srcType count glBuffer indices fixed s in
  isError (fst r) = true ->
  startIndex (translated (snd r)) = startIndex (translated s) /\
  startOffset (translated (snd r)) = startOffset (translated s) /\
  indexBuffer (translated (snd r)) = indexBuffer (translated s) /\
  serial (translated (snd r)) = serial (translated s) /\
  storage (translated (snd r)) = None.
Proof.
  cbv zeta.
  pose proof (request_state_binding s srcType count glBuffer indices fixed)
    as Hreq. cbv zeta in Hreq.
  destruct glBuffer as [buffer|].
  - destruct (binds_directly s buffer srcType
                (requested_type s srcType count fixed) (to_uint indices))
      eqn:Hd.
    + rewrite (prepare_case2a _ _ _ _ _ _ Hd). discriminate.
    + rewrite (prepare_case2b _ _ _ _ _ _ Hd).
      destruct (staticBufferInitialized _ _ && negb _).
      * match goal with
        | |- context [prepare_stream_block ?b ?o ?c ?st ?dt ?f ?s0] =>
            destruct (prepare_stream_block_binding b o c st dt f s0)
              as (Herr & _)
        end.
        intros He. rewrite (Herr He). exact Hreq.
      * destruct (if offsetAligned _ _ then _ else _) as [sb|].
        -- match goal with
           | |- context [prepare_static_block ?b ?x ?i ?o ?st ?dt ?f ?s0] =>
               pose proof (prepare_static_block_error b x i o st dt f s0)
                 as Herr
           end.
           intros He. rewrite (Herr He). exact Hreq.
        -- match goal with
           | |- context [prepare_stream_block ?b ?o ?c ?st ?dt ?f ?s0] =>
               destruct (prepare_stream_block_binding b o c st dt f s0)
                 as (Herr & _)
           end.
           intros He. rewrite (Herr He). exact Hreq.
  - rewrite prepare_case1.
    match goal with
    | |- context [streamIndexData ?d ?c ?st ?dt ?f ?s0] =>
        pose proof (streamIndexData_error d c st dt f s0) as Herr
    end.
    intros He. rewrite (Herr He). exact Hreq.
Qed.

End Descriptor.

Lemma prepare_failure_keeps_old_binding_witness :
  let s :=
    TestBackend.initial_state (TestBackend.world_of [] false None)
      RENDERER_D3D11 0 0 in
  let r := prepareIndexData GL_UNSIGNED_INT (2 ^ 30) None 64 false s in
  indexBuffer (translated (snd r)) = None /\
  storage (translated (snd r)) = None.
Proof.
  intros s r.
  assert (He : isError (fst r) = true) by (vm_compute; reflexivity).
  destruct (prepare_failure_keeps_old_binding GL_UNSIGNED_INT (2 ^ 30) None
              64 false s He) as (_ & _ & Hib & _ & Hst).
  split; [exact Hib|exact Hst].
Defined.

Section SuccessfulCalls.

Context {World : Type} {backend : Backend World}.

Implicit Types (s : State World) (data : list byte).

Lemma requested_type_is_index_type s srcType count fixed :
  IsIndexType (requested_type s srcType count fixed).
Proof. unfold requested_type. apply destinationType_is_index_type. Qed.

Lemma binds_directly_true s buffer srcType dstType offset :
  binds_directly s buffer srcType dstType offset = true ->
  offsetAligned srcType offset = true /\
  supportsDirectBinding buffer (world s) = true /\ dstType = srcType.
Proof.
  unfold binds_directly. rewrite !andb_true_iff, Z.eqb_eq. tauto.
Qed.

(** X10. The backing of a successful call.  When [prepareIndexData] succeeds
    the descriptor has exactly one backing: either the source buffer itself
    as storage and no index buffer (the buffer was bound directly), or no
    storage and an index buffer (a streaming buffer or a static one). *)
Theorem prepare_success_has_one_backing
    srcType count glBuffer indices fixed s :
  let r := prepareIndexData srcType count glBuffer indices fixed s in
  isError (fst r) = false ->
  fst r = NoError /\
  ((exists buffer,
      glBuffer = Some buffer /\
      storage (translated (snd r)) = Some buffer /\
      indexBuffer (translated (snd r)) = None)
   \/
   (storage (translated (snd r)) = None /\
    exists ib, indexBuffer (translated (snd r)) = Some ib)).
Proof.
  cbv zeta. intros He.
  split; [destruct (fst (prepareIndexData _ _ _ _ _ _)); [reflexivity|..];
          discriminate He|].
  revert He. destruct glBuffer as [buffer|].
  - destruct (binds_directly s buffer srcType
                (requested_type s srcType count fixed) (to_uint indices))
      eqn:Hd.
    + rewrite (prepare_case2a _ _ _ _ _ _ Hd). intros _. left.
      exists buffer. cbn. auto.
    + rewrite (prepare_case2b _ _ _ _ _ _ Hd).
      destruct (staticBufferInitialized _ _ && negb _).
      * match goal with
        | |- context [prepare_stream_block ?b ?o ?c ?st ?dt ?f ?s0] =>
            destruct (prepare_stream_block_binding b o c st dt f s0)
              as (_ & Hok);
            destruct (prepare_stream_block_spec b o c st dt f s0)
              as ((_ & Hst & _) & _)
        end.
        intros He. right. split; [rewrite Hst; reflexivity|].
        exact (proj1 (Hok He)).
      * destruct (if offsetAligned _ _ then _ else _) as [sb|].
        -- match goal with
           | |- context [prepare_static_block ?b ?x ?i ?o ?st ?dt ?f ?s0] =>
               destruct (prepare_static_block_spec b x i o st dt f s0)
                 as ((_ & Hst & _) & _ & _ & _ & Hok)
           end.
           intros He. right. split; [rewrite Hst; reflexivity|].
           destruct (Hok He) as (_ & Hib & _). eauto.
        -- match goal with
           | |- context [prepare_stream_block ?b ?o ?c ?st ?dt ?f ?s0] =>
               destruct (prepare_stream_block_binding b o c st dt f s0)
                 as (_ & Hok);
               destruct (prepare_stream_block_spec b o c st dt f s0)
                 as ((_ & Hst & _) & _)
           end.
           intros He. right. split; [rewrite Hst; reflexivity|].
           exact (proj1 (Hok He)).
  - rewrite prepare_case1.
    match goal with
    | |- context [streamIndexData ?d ?c ?st ?dt ?f ?s0] =>
        destruct (streamIndexData_spec d c st dt f s0)
          as ((_ & Hst & _) & pre & ib & n & _ & _ & Hok)
    end.
    intros He. right. split; [rewrite Hst; reflexivity|].
    destruct (Hok He) as (_ & _ & _ & _ & Hib & _). eauto.
Qed.

(** X11. The start index counts destination elements.  When
    [prepareIndexData] succeeds, the descriptor's start index is its start
    offset divided by the size of an element of the descriptor's index type,
    on every path; for a buffer-backed draw this needs the rescaled offset to
    fit [unsigned int]. *)
Theorem prepare_start_index_is_start_offset_in_elements
    srcType count glBuffer indices fixed s :
  let r := prepareIndexData srcType count glBuffer indices fixed s in
  let dstType := indexType (translated (snd r)) in
  fst r = NoError ->
  (glBuffer <> None ->
   to_uint indices / bytes (GetTypeInfo srcType)
   * bytes (GetTypeInfo (requested_type s srcType count fixed)) <= UINT_MAX) ->
  startIndex (translated (snd r))
  = startOffset (translated (snd r)) / bytes (GetTypeInfo dstType).
Proof.
  cbv zeta.
  destruct (prepare_request srcType count glBuffer indices fixed s)
    as (_ & -> & _).
  pose proof (requested_type_is_index_type s srcType count fixed) as Hdty.
  set (dstType := requested_type s srcType count fixed) in *.
  assert (Hstream : forall t : TranslatedIndexData,
             startIndex t
             = Z.shiftr (startOffset t) (bytesShift (GetTypeInfo dstType)) ->
             startIndex t = startOffset t / bytes (GetTypeInfo dstType)).
  { intros t ->.
    exact (proj2 (shift_is_scaling dstType (startOffset t) Hdty)). }
  destruct glBuffer as [buffer|].
  - destruct (binds_directly s buffer srcType dstType (to_uint indices))
      eqn:Hd.
    + rewrite (prepare_case2a _ _ _ _ _ _ Hd). intros _ _. cbn.
      destruct (binds_directly_true _ _ _ _ _ Hd) as (_ & _ & Heq).
      rewrite <- Heq.
      exact (proj2 (shift_is_scaling dstType (to_uint indices) Hdty)).
    + rewrite (prepare_case2b _ _ _ _ _ _ Hd). fold dstType.
      destruct (staticBufferInitialized _ _ && negb _).
      * match goal with
        | |- context [prepare_stream_block ?b ?o ?c ?st ?dt ?f ?s0] =>
            destruct (prepare_stream_block_binding b o c st dt f s0)
              as (_ & Hok)
        end.
        intros Hno _. apply Hstream. apply Hok. now rewrite Hno.
      * destruct (offsetAligned srcType (to_uint indices)) eqn:Hal.
        2:{ match goal with
            | |- context [prepare_stream_block ?b ?o ?c ?st ?dt ?f ?s0] =>
                destruct (prepare_stream_block_binding b o c st dt f s0)
                  as (_ & Hok)
            end.
            intros Hno _. apply Hstream. apply Hok. now rewrite Hno. }
        destruct (getStaticIndexBuffer buffer (world s)) as [sb|].
        2:{ match goal with
            | |- context [prepare_stream_block ?b ?o ?c ?st ?dt ?f ?s0] =>
                destruct (prepare_stream_block_binding b o c st dt f s0)
                  as (_ & Hok)
            end.
            intros Hno _. apply Hstream. apply Hok. now rewrite Hno. }
        match goal with
        | |- context [prepare_static_block ?b ?x ?i ?o ?st ?dt ?f ?s0] =>
            destruct (prepare_static_block_spec b x i o st dt f s0)
              as (_ & _ & _ & _ & Hok)
        end.
        intros Hno Hfit. rewrite Hno in Hok.
        destruct (Hok eq_refl) as (_ & _ & _ & -> & ->).
        destruct (offsetAligned_true _ _ Hal) as [Hsrc _].
        destruct (shift_is_scaling srcType (to_uint indices) Hsrc)
          as [_ ->].
        destruct (shift_is_scaling dstType
                    (to_uint indices / bytes (GetTypeInfo srcType)) Hdty)
          as [-> _].
        assert (Hpos : 0 < bytes (GetTypeInfo dstType)).
        { destruct (index_type_info dstType Hdty) as [-> | [-> | ->]];
            cbn [bytes]; lia. }
        assert (Hsrcpos : 0 < bytes (GetTypeInfo srcType)).
        { destruct (index_type_info srcType Hsrc) as [-> | [-> | ->]];
            cbn [bytes]; lia. }
        pose proof (to_uint_range indices) as Hoff.
        assert (Hq : 0 <= to_uint indices / bytes (GetTypeInfo srcType))
          by (apply Z.div_pos; lia).
        rewrite (to_uint_small
                   (to_uint indices / bytes (GetTypeInfo srcType)
                    * bytes (GetTypeInfo dstType))).
        -- rewrite Z.div_mul by lia. reflexivity.
        -- split; [nia|]. apply Hfit. discriminate.
  - rewrite prepare_case1. fold dstType.
    match goal with
    | |- context [streamIndexData ?d ?c ?st ?dt ?f ?s0] =>
        destruct (streamIndexData_spec d c st dt f s0)
          as (_ & pre & ib & n & _ & _ & Hok)
    end.
    intros Hno _. apply Hstream. rewrite Hno in Hok.
    destruct (Hok eq_refl) as (_ & _ & _ & _ & _ & _ & Hidx). exact Hidx.
Qed.

End SuccessfulCalls.

Lemma prepare_success_has_one_backing_witness :
  let s :=
    TestBackend.initial_state
      (TestBackend.world_of (store_array GLushort [5; 6; 7]) true None)
      RENDERER_D3D11 7 3 in
  let r := prepareIndexData GL_UNSIGNED_SHORT 2 (Some 1) 2 true s in
  storage (translated (snd r)) = Some 1 /\
  indexBuffer (translated (snd r)) = None.
Proof.
  intros s r.
  assert (He : isError (fst r) = false) by (vm_compute; reflexivity).
  pose proof (prepare_success_has_one_backing GL_UNSIGNED_SHORT 2 (Some 1) 2
                true s) as H.
  cbv zeta in H. fold r in H.
  destruct (H He) as (_ & [(b & Hb & Hst & Hib) | (Hst & _)]).
  - injection Hb as <-. split; [exact Hst|exact Hib].
  - discriminate Hst.
Defined.

Lemma prepare_start_index_is_start_offset_in_elements_witness :
  let s :=
    TestBackend.initial_state
      (TestBackend.world_of (store_array GLushort [5; 65535; 7]) true
         (Some (0, 0)))
      RENDERER_D3D11 65535 2 in
  let r := prepareIndexData GL_UNSIGNED_SHORT 2 (Some 1) 2 false s in
  startIndex (translated (snd r)) = startOffset (translated (snd r)) / 4.
Proof.
  intros s r.
  pose proof (prepare_start_index_is_start_offset_in_elements
                GL_UNSIGNED_SHORT 2 (Some 1) 2 false s) as H.
  cbv zeta in H. fold r in H.
  assert (Hb : bytes (GetTypeInfo (indexType (translated (snd r)))) = 4)
    by (vm_compute; reflexivity).
  rewrite Hb in H. apply H.
  - vm_compute. reflexivity.
  - intros _. vm_compute. discriminate.
Defined.

(** ** Which collaborators a draw calls *)

Section Calls.

Context {World : Type} {backend : Backend World}.

Implicit Types (s : State World) (data : list byte).

Lemma prepare_stream_block_reads_first buffer offset count srcType dstType
    fixed s :
  exists evs,
    trace
      (snd (prepare_stream_block buffer offset count srcType dstType fixed s))
    = trace s ++ EvGetData buffer :: evs.
Proof.
  destruct (prepare_stream_block_spec buffer offset count srcType dstType
              fixed s) as (_ & pre & ib & n & _ & Herr & Hok).
  destruct (isError
              (fst (prepare_stream_block buffer offset count srcType dstType
                      fixed s))) eqn:He.
  - rewrite (Herr eq_refl). eexists. reflexivity.
  - destruct (Hok eq_refl) as (_ & -> & _). eexists. reflexivity.
Qed.

(** X12. A draw at an unaligned offset.  When the byte offset of a
    buffer-backed draw is not a multiple of the source element size, the
    call never binds the buffer or its static buffer: it runs the streaming
    block.  If the buffer has an initialized static buffer, that one is
    invalidated first, whatever its index type, so even a static buffer of
    the right type is discarded; otherwise the first call made is the read
    of the buffer's data. *)
Theorem prepare_unaligned_offset_streams
    srcType count buffer indices fixed s :
  let offset := to_uint indices in
  let dstType := requested_type s srcType count fixed in
  let initialized :=
    staticBufferInitialized (getStaticIndexBuffer buffer (world s))
      (world s) in
  let s0 := request_state s srcType count (Some buffer) indices fixed in
  offsetAligned srcType offset = false ->
  let r := prepareIndexData srcType count (Some buffer) indices fixed s in
  r = prepare_stream_block buffer offset count srcType dstType fixed
        (if initialized
         then record (EvInvalidateStaticData buffer)
                (invalidateStaticData buffer (world s)) s0
         else s0) /\
  (initialized = true ->
   exists evs,
     trace (snd r)
     = trace s ++ EvInvalidateStaticData buffer :: EvGetData buffer :: evs) /\
  (initialized = false ->
   exists evs, trace (snd r) = trace s ++ EvGetData buffer :: evs) /\
  storage (translated (snd r)) = None.
Proof.
  intros offset dstType initialized s0 Hal r.
  assert (Hnd : binds_directly s buffer srcType dstType offset = false).
  { unfold binds_directly. rewrite Hal. reflexivity. }
  assert (Hu : staticBufferUsable (getStaticIndexBuffer buffer (world s))
                 (offsetAligned srcType offset) dstType (world s) = false).
  { rewrite Hal. destruct (getStaticIndexBuffer buffer (world s));
      reflexivity. }
  assert (Hpath :
            r = prepare_stream_block buffer offset count srcType dstType fixed
                  (if initialized
                   then record (EvInvalidateStaticData buffer)
                          (invalidateStaticData buffer (world s)) s0
                   else s0)).
  { subst r. rewrite (prepare_case2b _ _ _ _ _ _ Hnd).
    fold offset dstType. rewrite Hu. fold initialized s0.
    rewrite Hal, andb_true_r. destruct initialized; reflexivity. }
  split; [exact Hpath|].
  match type of Hpath with
  | _ = prepare_stream_block ?b ?o ?c ?st ?dt ?f ?s1 =>
      destruct (prepare_stream_block_reads_first b o c st dt f s1)
        as (evs & Htr);
      destruct (prepare_stream_block_spec b o c st dt f s1)
        as ((_ & Hst & _) & _)
  end.
  rewrite <- Hpath in Htr, Hst.
  split; [|split].
  - intros Hi. rewrite Hi in Htr. exists evs. rewrite Htr.
    cbn [record trace]. rewrite <- app_assoc. reflexivity.
  - intros Hi. rewrite Hi in Htr. exists evs. exact Htr.
  - rewrite Hst. destruct initialized; reflexivity.
Qed.

Lemma stream_events_on_index_buffer buffer data count srcType dstType flag n :
  Forall index_buffer_event
    (firstn n (stream_events buffer data count srcType dstType flag)).
Proof. apply Forall_take. unfold stream_events. repeat constructor. Qed.

Lemma creation_events_on_index_buffer dstType pre :
  creation_events dstType pre -> Forall index_buffer_event pre.
Proof. intros [-> | [nb ->]]; repeat constructor. Qed.

(** X13. A draw by pointer calls no source buffer.  With a null buffer the
    calls of [prepareIndexData] are the creation of the streaming buffer of
    the destination type, if it did not exist, and a prefix of the streamed
    write of the client array at the pointer: no data of a buffer is read,
    no static data is invalidated and no usage is promoted; the descriptor's
    storage is null. *)
Theorem prepare_pointer_draw_calls_no_source_buffer
    srcType count indices fixed s :
  let dstType := requested_type s srcType count fixed in
  let r := prepareIndexData srcType count None indices fixed s in
  storage (translated (snd r)) = None /\
  exists pre ib n,
    creation_events dstType pre /\
    trace (snd r)
    = trace s ++ pre
      ++ firstn n
           (stream_events ib (client_memory indices (world s))
              (to_uint count) srcType dstType fixed) /\
    Forall index_buffer_event
      (pre
       ++ firstn n
            (stream_events ib (client_memory indices (world s))
               (to_uint count) srcType dstType fixed)).
Proof.
  intros dstType r. subst r. rewrite prepare_case1. fold dstType.
  match goal with
  | |- context [streamIndexData ?d ?c ?st ?dt ?f ?s0] =>
      destruct (streamIndexData_spec d c st dt f s0)
        as ((_ & Hst & _) & pre & ib & n & Hpre & Htr & _)
  end.
  split; [rewrite Hst; reflexivity|].
  exists pre, ib, n. split; [assumption|]. split; [exact Htr|].
  apply Forall_app. split.
  - apply (creation_events_on_index_buffer _ _ Hpre).
  - apply stream_events_on_index_buffer.
Qed.

End Calls.

Lemma prepare_unaligned_offset_streams_witness :
  let s :=
    TestBackend.initial_state
      (TestBackend.world_of (store_array GLushort [5; 6; 7; 8]) true
         (Some (8, GL_UNSIGNED_SHORT)))
      RENDERER_D3D11 8 3 in
  let r := prepareIndexData GL_UNSIGNED_SHORT 2 (Some 1) 1 true s in
  exists evs,
    trace (snd r) = EvInvalidateStaticData 1 :: EvGetData 1 :: evs.
Proof.
  intros s r.
  pose proof (prepare_unaligned_offset_streams GL_UNSIGNED_SHORT 2 1 1 true s)
    as H.
  cbv zeta in H. fold r in H.
  destruct H as (_ & Hinit & _).
  - reflexivity.
  - destruct Hinit as (evs & Htr); [reflexivity|].
    exists evs. exact Htr.
Defined.

(** ** [IsStreamingIndexData] against [prepareIndexData] *)

Section Prediction.

Context {World : Type} {backend : Backend World}.

Implicit Types (s : State World) (data : list byte).

Lemma trace_grows (t : list Event) (e : Event) (l : list Event) :
  t ++ e :: l <> t.
Proof.
  intros H. rewrite <- (app_nil_r t) in H at 2.
  apply app_inv_head in H. discriminate H.
Qed.

Lemma prepare_static_block_fill_first buffer sb offset srcType dstType fixed
    s :
  exists evs,
    trace
      (snd (prepare_static_block buffer sb false offset srcType dstType fixed
              s))
    = trace s ++ EvGetData buffer :: evs.
Proof.
  destruct (prepare_static_block_spec buffer sb false offset srcType dstType
              fixed s) as (_ & _ & _ & Hbuild & _).
  destruct (Hbuild eq_refl) as (n & -> & _). eexists. reflexivity.
Qed.

(** X14. When [IsStreamingIndexData] is right.  For a buffer-backed draw at
    an aligned offset, made with the restart flag and renderer the predicate
    was asked with, and such that the scanned range shows a restart index
    whenever the workaround applies by flag, type and renderer: the
    predicate answers false exactly when [prepareIndexData] makes no call on
    any collaborator, and such a call succeeds and leaves the world as it
    was. *)
Theorem IsStreamingIndexData_predicts_quiet_call
    srcType count buffer indices fixed s :
  let rendererClass := mRendererClass (manager s) in
  offsetAligned srcType (to_uint indices) = true ->
  (UsePrimitiveRestartWorkaround fixed srcType rendererClass = true ->
   hasPrimitiveRestartIndex (indexRange (translated s)) count srcType
   = true) ->
  let r := prepareIndexData srcType count (Some buffer) indices fixed s in
  let streaming :=
    IsStreamingIndexData fixed (Some buffer) srcType rendererClass (world s)
  in
  (streaming = false <-> trace (snd r) = trace s) /\
  (streaming = false -> fst r = NoError /\ world (snd r) = world s).
Proof.
  intros rendererClass Hal Hrestart r streaming.
  set (dstType := requested_type s srcType count fixed).
  assert (Hdst : (if (srcType =? GL_UNSIGNED_INT)
                     || UsePrimitiveRestartWorkaround fixed srcType
                          rendererClass
                  then GL_UNSIGNED_INT else GL_UNSIGNED_SHORT) = dstType).
  { subst dstType. unfold requested_type, destinationType,
      primitiveRestartWorkaround. fold rendererClass.
    destruct (UsePrimitiveRestartWorkaround fixed srcType rendererClass);
      [rewrite (Hrestart eq_refl)|]; reflexivity. }
  assert (Hstreaming :
            streaming
            = if supportsDirectBinding buffer (world s) && (dstType =? srcType)
              then false
              else match getStaticIndexBuffer buffer (world s) with
                   | None => true
                   | Some sb =>
                       (getBufferSize sb (world s) =? 0)
                       || negb (getIndexType sb (world s) =? dstType)
                   end).
  { subst streaming. unfold IsStreamingIndexData. rewrite Hdst.
    destruct (supportsDirectBinding buffer (world s) && (dstType =? srcType));
      [reflexivity|].
    destruct (getStaticIndexBuffer buffer (world s)) as [sb|];
      [|reflexivity].
    destruct ((getBufferSize sb (world s) =? 0)
              || negb (getIndexType sb (world s) =? dstType)); reflexivity. }
  rewrite Hstreaming. clear Hstreaming. subst r.
  destruct (binds_directly s buffer srcType dstType (to_uint indices)) eqn:Hd.
  { rewrite (prepare_case2a _ _ _ _ _ _ Hd).
    unfold binds_directly in Hd. rewrite Hal in Hd. cbn [andb] in Hd.
    rewrite Hd. cbn. tauto. }
  rewrite (prepare_case2b _ _ _ _ _ _ Hd). fold dstType. rewrite Hal.
  unfold binds_directly in Hd. rewrite Hal in Hd. cbn [andb] in Hd.
  rewrite Hd.
  destruct (getStaticIndexBuffer buffer (world s)) as [sb|].
  2:{ cbn [staticBufferInitialized andb].
      match goal with
      | |- context [prepare_stream_block ?b ?o ?c ?st ?dt ?f ?s0] =>
          destruct (prepare_stream_block_reads_first b o c st dt f s0)
            as (evs & ->)
      end.
      cbn [trace request_state]. split; [|discriminate].
      split; [discriminate|]. intros H. now apply trace_grows in H. }
  cbn [staticBufferInitialized staticBufferUsable andb].
  destruct (getBufferSize sb (world s) =? 0) eqn:Hz; cbn [negb andb orb].
  { destruct (prepare_static_block_fill_first buffer sb (to_uint indices)
                srcType dstType fixed
                (request_state s srcType count (Some buffer) indices fixed))
      as (evs & ->).
    cbn [trace request_state]. split; [|discriminate].
    split; [discriminate|]. intros H. now apply trace_grows in H. }
  destruct (getIndexType sb (world s) =? dstType) eqn:Ht; cbn [negb].
  - match goal with
    | |- context [prepare_static_block ?b ?x true ?o ?st ?dt ?f ?s0] =>
        destruct (prepare_static_block_spec b x true o st dt f s0)
          as (_ & _ & Hinit & _)
    end.
    destruct (Hinit eq_refl) as (Hno & Hw & Htr).
    rewrite Htr, Hno, Hw. cbn. tauto.
  - match goal with
    | |- context [prepare_stream_block ?b ?o ?c ?st ?dt ?f ?s0] =>
        destruct (prepare_stream_block_reads_first b o c st dt f s0)
          as (evs & ->)
    end.
    cbn [trace record request_state]. rewrite <- app_assoc.
    split; [|discriminate].
    split; [discriminate|]. intros H. now apply trace_grows in H.
Qed.

(** X15. When [IsStreamingIndexData] is wrong.  The predicate decides the
    workaround by flag, type and renderer alone, while [prepareIndexData]
    also asks for a restart index in the scanned range.  So for a 16-bit
    draw on D3D11 with primitive restart off, an aligned offset, a range
    without a restart index and a buffer that supports direct binding, the
    call binds the buffer directly, with no call on a collaborator, while the
    predicate answers that the draw streams unless the buffer has an
    initialized static buffer of 32-bit type. *)
Theorem IsStreamingIndexData_ignores_the_scanned_range
    count buffer indices s :
  mRendererClass (manager s) = RENDERER_D3D11 ->
  hasPrimitiveRestartIndex (indexRange (translated s)) count
    GL_UNSIGNED_SHORT = false ->
  offsetAligned GL_UNSIGNED_SHORT (to_uint indices) = true ->
  supportsDirectBinding buffer (world s) = true ->
  let r :=
    prepareIndexData GL_UNSIGNED_SHORT count (Some buffer) indices false s in
  let streaming :=
    IsStreamingIndexData false (Some buffer) GL_UNSIGNED_SHORT RENDERER_D3D11
      (world s) in
  fst r = NoError /\ trace (snd r) = trace s /\
  storage (translated (snd r)) = Some buffer /\
  indexType (translated (snd r)) = GL_UNSIGNED_SHORT /\
  (getStaticIndexBuffer buffer (world s) = None -> streaming = true) /\
  (forall sb,
     getStaticIndexBuffer buffer (world s) = Some sb ->
     streaming
     = (getBufferSize sb (world s) =? 0)
       || negb (getIndexType sb (world s) =? GL_UNSIGNED_INT)).
Proof.
  intros Hrc Hrange Hal Hdirect r streaming.
  assert (Hreq : requested_type s GL_UNSIGNED_SHORT count false
                 = GL_UNSIGNED_SHORT).
  { unfold requested_type, primitiveRestartWorkaround.
    rewrite Hrange, andb_false_r. reflexivity. }
  assert (Hd : binds_directly s buffer GL_UNSIGNED_SHORT
                 (requested_type s GL_UNSIGNED_SHORT count false)
                 (to_uint indices) = true).
  { unfold binds_directly. rewrite Hal, Hdirect, Hreq. reflexivity. }
  subst r. rewrite (prepare_case2a _ _ _ _ _ _ Hd), Hreq. cbn.
  repeat (split; [reflexivity|]).
  subst streaming. unfold IsStreamingIndexData.
  change (UsePrimitiveRestartWorkaround false GL_UNSIGNED_SHORT
            RENDERER_D3D11) with true.
  cbn [orb]. rewrite Hdirect.
  change (GL_UNSIGNED_INT =? GL_UNSIGNED_SHORT) with false. cbn [andb].
  split.
  - intros ->. reflexivity.
  - intros sb ->.
    destruct ((getBufferSize sb (world s) =? 0)
              || negb (getIndexType sb (world s) =? GL_UNSIGNED_INT));
      reflexivity.
Qed.

End Prediction.

Lemma IsStreamingIndexData_predicts_quiet_call_witness :
  let s :=
    TestBackend.initial_state
      (TestBackend.world_of (store_array GLushort [5; 6; 7]) false
         (Some (6, GL_UNSIGNED_SHORT)))
      RENDERER_D3D11 7 3 in
  let r := prepareIndexData GL_UNSIGNED_SHORT 2 (Some 1) 2 true s in
  fst r = NoError /\ world (snd r) = world s.
Proof.
  intros s r.
  pose proof (IsStreamingIndexData_predicts_quiet_call GL_UNSIGNED_SHORT 2 1
                2 true s) as H.
  cbv zeta in H. fold r in H.
  destruct H as (_ & Hquiet).
  - reflexivity.
  - intros Hw. discriminate Hw.
  - apply Hquiet. reflexivity.
Defined.

Lemma IsStreamingIndexData_ignores_the_scanned_range_witness :
  let s :=
    TestBackend.initial_state
      (TestBackend.world_of (store_array GLushort [5; 6; 7]) true None)
      RENDERER_D3D11 7 3 in
  IsStreamingIndexData false (Some 1) GL_UNSIGNED_SHORT RENDERER_D3D11
    (world s) = true /\
  trace (snd (prepareIndexData GL_UNSIGNED_SHORT 3 (Some 1) 0 false s)) = [].
Proof.
  intros s.
  pose proof (IsStreamingIndexData_ignores_the_scanned_range 3 1 0 s) as H.
  cbv zeta in H.
  destruct H as (_ & Htr & _ & _ & Hnone & _); try reflexivity.
  split; [apply Hnone; reflexivity|exact Htr].
Defined.

(** ** The life of the manager *)

Section Lifetime.

Context {World : Type} {backend : Backend World}.

Implicit Types (s : State World) (data : list byte).

(** X16. [deinitialize] and the next draw.  [deinitialize] puts the manager
    back to what the constructor made, with the same renderer class, and
    deletes the streaming buffers the manager owned, the short one first, each
    once: the world is the one these deletions leave, and a second
    [deinitialize] deletes nothing and changes nothing.  It leaves the
    descriptor as it is.  Whatever streaming buffers existed before, the next
    request of a streaming buffer of any type creates a new one, in the world
    the deletions left, and reserves its initial size. *)
Theorem deinitialize_then_stream_creates_buffer
    (delete : IndexBufferInterfaceRef -> World -> World) ty s :
  let d := snd (deinitialize delete s) in
  let w1 :=
    match mStreamingBufferShort (manager s) with
    | Some short => delete short (world s)
    | None => world s
    end in
  let w2 :=
    match mStreamingBufferInt (manager s) with
    | Some int => delete int w1
    | None => w1
    end in
  let created := newStreamingIndexBufferInterface w2 in
  manager d = new_IndexDataManager (mRendererClass (manager s)) /\
  world d = w2 /\ translated d = translated s /\
  deinitialize delete d = (tt, d) /\
  trace (snd (getStreamingIndexBuffer ty d))
  = trace d
    ++ [EvNewStreamingBuffer (fst created);
        EvReserveBufferSpace (fst created) INITIAL_INDEX_BUFFER_SIZE ty].
Proof.
  unfold deinitialize, delete_owned, new_IndexDataManager. run.
  destruct (mStreamingBufferShort (manager s)) as [short|];
    destruct (mStreamingBufferInt (manager s)) as [int|];
    cbn [fst snd world manager translated trace mStreamingBufferInt
           mStreamingBufferShort mRendererClass];
    (repeat (split; [reflexivity|]));
    unfold getStreamingIndexBuffer; run;
    destruct (ty =? GL_UNSIGNED_INT);
    cbn [mStreamingBufferInt mStreamingBufferShort mRendererClass]; run;
    branch; rewrite <- app_assoc; reflexivity.
Qed.

Lemma prepare_static_block_reuse buffer sb offset srcType dstType fixed s :
  prepare_static_block buffer sb true offset srcType dstType fixed s
  = (NoError,
     mk_State (world s) (manager s)
       (set_binding (Some (getIndexBuffer sb (world s)))
          (getIndexSerial sb (world s))
          (Z.shiftr offset (bytesShift (GetTypeInfo srcType)))
          (to_uint
             (Z.shiftl (Z.shiftr offset (bytesShift (GetTypeInfo srcType)))
                (bytesShift (GetTypeInfo dstType))))
          (translated s))
       (trace s)).
Proof. reflexivity. Qed.

Lemma getStreamingIndexBuffer_quiet ty s :
  let r := getStreamingIndexBuffer ty s in
  (exists b, r = (NoError, Some b, s)) \/
  (exists e l, trace (snd r) = trace s ++ e :: l).
Proof.
  unfold getStreamingIndexBuffer. run.
  destruct (if ty =? GL_UNSIGNED_INT then _ else _) as [b|].
  - left. exists b. reflexivity.
  - right. run. branch; rewrite <- app_assoc; eexists; eexists; reflexivity.
Qed.

Lemma streamIndexData_quiet data count srcType dstType flag s :
  let r := streamIndexData data count srcType dstType flag s in
  trace (snd r) = trace s -> r = (OutOfMemory, s).
Proof.
  unfold streamIndexData, bind.
  destruct (getStreamingIndexBuffer_quiet dstType s)
    as [(b & ->) | (e & l & Hgrow)].
  - cbn [isError fst snd].
    destruct (Z_gt_le_dec count
                (Z.shiftr UINT_MAX (bytesShift (GetTypeInfo dstType))))
      as [Hgt|Hle].
    + rewrite (StreamInIndexBuffer_overflow _ _ _ _ _ _ _ Hgt).
      reflexivity.
    + pose proof (StreamInIndexBuffer_spec b data count srcType dstType flag
                    s Hle) as (_ & _ & n & Hn & Htr & _).
      destruct (StreamInIndexBuffer b data count srcType dstType flag s)
        as [[e1 off] s1].
      cbn [fst snd] in Htr. destruct n as [|n]; [lia|].
      cbn [firstn stream_events] in Htr.
      destruct (isError e1); run; cbn [ret snd trace]; rewrite Htr;
        intros H; now apply trace_grows in H.
  - destruct (getStreamingIndexBuffer dstType s) as [[e0 ob] s1].
    cbn [fst snd] in Hgrow.
    destruct (isError e0).
    { cbn [ret snd]. rewrite Hgrow. intros H. now apply trace_grows in H. }
    destruct ob as [ib|].
    2:{ cbn [ret snd]. rewrite Hgrow. intros H.
        now apply trace_grows in H. }
    pose proof (StreamInIndexBuffer_frame ib data count srcType dstType flag
                  s1) as (_ & _ & n & Htr & _).
    destruct (StreamInIndexBuffer ib data count srcType dstType flag s1)
      as [[e1 off] s2].
    cbn [fst snd] in Htr.
    destruct (isError e1); run; cbn [ret snd trace];
      rewrite Htr, Hgrow, <- app_assoc; cbn [app];
      intros H; now apply trace_grows in H.
Qed.

(** X17. A call that made no call is a fixed point.  If a call of
    [prepareIndexData] left the trace as it was (the buffer was bound
    directly, an initialized static buffer was reused, or the capacity check
    of a draw by pointer failed on an existing streaming buffer), then the
    same call made again in the state it left returns the same result and
    leaves that state unchanged: the same descriptor, serial included, and
    no conversion. *)
Theorem prepare_without_calls_is_a_fixed_point
    srcType count glBuffer indices fixed s :
  let r := prepareIndexData srcType count glBuffer indices fixed s in
  trace (snd r) = trace s ->
  prepareIndexData srcType count glBuffer indices fixed (snd r) = r.
Proof.
  cbv zeta. destruct glBuffer as [buffer|].
  - destruct (binds_directly s buffer srcType
                (requested_type s srcType count fixed) (to_uint indices))
      eqn:Hd.
    + rewrite (prepare_case2a _ _ _ _ _ _ Hd). intros _.
      cbn [snd]. rewrite prepare_case2a; [reflexivity|exact Hd].
    + rewrite (prepare_case2b _ _ _ _ _ _ Hd).
      destruct (staticBufferInitialized _ _ && negb _) eqn:Hinv.
      * match goal with
        | |- context [prepare_stream_block ?b ?o ?c ?st ?dt ?f ?s0] =>
            destruct (prepare_stream_block_reads_first b o c st dt f s0)
              as (evs & ->)
        end.
        cbn [trace record request_state]. rewrite <- app_assoc.
        intros H. now apply trace_grows in H.
      * destruct (if offsetAligned _ _ then _ else _) as [sb|] eqn:Hsb.
        2:{ match goal with
            | |- context [prepare_stream_block ?b ?o ?c ?st ?dt ?f ?s0] =>
                destruct (prepare_stream_block_reads_first b o c st dt f s0)
                  as (evs & ->)
            end.
            cbn [trace request_state].
            intros H. now apply trace_grows in H. }
        destruct (staticBufferInitialized
                    (getStaticIndexBuffer buffer (world s)) (world s))
          eqn:Hi.
        2:{ match goal with
            | |- context [prepare_static_block ?b ?x false ?o ?st ?dt ?f ?s0]
              =>
                destruct (prepare_static_block_fill_first b x o st dt f s0)
                  as (evs & ->)
            end.
            cbn [trace request_state].
            intros H. now apply trace_grows in H. }
        intros _. rewrite prepare_static_block_reuse. cbn [snd].
        match goal with
        | |- prepareIndexData _ _ _ _ _ ?s' = _ => set (s1 := s')
        end.
        assert (Hw : world s1 = world s) by reflexivity.
        assert (Hreq : requested_type s1 srcType count fixed
                       = requested_type s srcType count fixed)
          by reflexivity.
        rewrite prepare_case2b; [|exact Hd].
        rewrite Hw, Hreq, Hi, Hinv, Hsb, prepare_static_block_reuse.
        reflexivity.
  - rewrite prepare_case1.
    match goal with
    | |- context [streamIndexData ?d ?c ?st ?dt ?f ?s0] =>
        pose proof (streamIndexData_quiet d c st dt f s0) as Hquiet;
        set (s1 := s0) in *
    end.
    cbv zeta in Hquiet. intros Htr.
    assert (Hs1 : trace s1 = trace s) by reflexivity.
    rewrite <- Hs1 in Htr. specialize (Hquiet Htr).
    rewrite Hquiet. cbn [snd]. rewrite prepare_case1.
    assert (Hw : world s1 = world s) by reflexivity.
    assert (Hreq : requested_type s1 srcType count fixed
                   = requested_type s srcType count fixed) by reflexivity.
    assert (Hst : request_state s1 srcType count None indices fixed = s1)
      by reflexivity.
    rewrite Hw, Hreq, Hst. exact Hquiet.
Qed.

End Lifetime.

Lemma prepare_without_calls_is_a_fixed_point_witness :
  let s :=
    TestBackend.initial_state
      (TestBackend.world_of (store_array GLushort [5; 6; 7]) false
         (Some (6, GL_UNSIGNED_SHORT)))
      RENDERER_D3D11 7 3 in
  let r := prepareIndexData GL_UNSIGNED_SHORT 2 (Some 1) 2 true s in
  prepareIndexData GL_UNSIGNED_SHORT 2 (Some 1) 2 true (snd r) = r.
Proof.
  intros s r.
  pose proof (prepare_without_calls_is_a_fixed_point GL_UNSIGNED_SHORT 2
                (Some 1) 2 true s) as H.
  cbv zeta in H. fold r in H. apply H. reflexivity.
Defined.
